(** * Autocomplete-Plus: the CSV status and file-serving endpoints

    A shallow embedding of [modules/api.py]: the directory scanner
    [get_csv_file_status], the metadata reader, the LoRA CSV synthesizer and
    the HTTP handlers built from them, with the properties the specification
    states about them.  The messages the module prints are no part of the
    model: the console is taken to accept whatever text it is given. *)

From Stdlib Require Import ZArith Ascii String List Lia DecimalString.
From stdpp Require Import gmap strings list.

Local Open Scope Z_scope.
Set Warnings "-register-all".

(** ** Python strings

    A [str] is a Rocq [string].  The four operations the module uses are
    written out; [lower] is Python's [str.lower] on the ASCII letters, which
    is all the two substring tests of the scanner can observe (no character
    outside ASCII lowercases to a letter of "tags_cooccurrence").

    A character outside ASCII stands as the bytes of its UTF-8 form, and a
    lone surrogate (a [str] may hold one: [json.load] decodes the escape
    \ud800 to it) as the three bytes [237], [160..191], [128..191] its code
    point takes in that form.  [encodable] is what [str.encode('utf8')]
    accepts: text without a surrogate. *)

Fixpoint startswith (s p : string) {struct p} : bool :=
  match p with
  | EmptyString => true
  | String c p' =>
      match s with
      | EmptyString => false
      | String d s' => Ascii.eqb c d && startswith s' p'
      end
  end.

Fixpoint endswith (s p : string) : bool :=
  String.eqb s p ||
  match s with
  | EmptyString => false
  | String _ s' => endswith s' p
  end.

(** [contains s p] is Python's [p in s]. *)
Fixpoint contains (s p : string) : bool :=
  startswith s p ||
  match s with
  | EmptyString => false
  | String _ s' => contains s' p
  end.

Definition lower_ascii (c : ascii) : ascii :=
  let n := nat_of_ascii c in
  if (Nat.leb 65 n && Nat.leb n 90)%bool then ascii_of_nat (n + 32) else c.

Fixpoint lower (s : string) : string :=
  match s with
  | EmptyString => EmptyString
  | String c s' => String (lower_ascii c) (lower s')
  end.

Fixpoint encodable (s : string) : bool :=
  match s with
  | String c (String d _ as s') =>
      if (Nat.eqb (nat_of_ascii c) 237
          && Nat.leb 160 (nat_of_ascii d) && Nat.leb (nat_of_ascii d) 191)%bool
      then false else encodable s'
  | _ => true
  end.

(** [x in [a, b, ...]] on a list of strings. *)
Definition in_list (x : string) (l : list string) : bool :=
  existsb (String.eqb x) l.

(** ** Module constants *)

Definition DANBOORU_PREFIX : string := "danbooru".
Definition E621_PREFIX : string := "e621".
Definition LORA_PREFIX : string := "lora".

Definition TAGS_SUFFIX : string := "tags".
Definition COOCCURRENCE_SUFFIX : string := "tags_cooccurrence".

(** ** Exceptions and results

    A call either returns a value or raises; the exception classes are the
    ones the module can meet, each with its message.  [IOError] is Python 3's
    alias of [OSError]; [JSONDecodeError], [UnicodeDecodeError] and
    [UnicodeEncodeError] are subclasses of [ValueError]. *)

Inductive exn : Type :=
| OSError (msg : string)
| JSONDecodeError (msg : string)
| UnicodeDecodeError (msg : string)
| UnicodeEncodeError (msg : string)
| ValueError (msg : string)
| TypeError (msg : string)
| AttributeError (msg : string)
| KeyError (msg : string)
| IndexError (msg : string)
| OverflowError (msg : string).

Inductive result (A : Type) : Type :=
| Return (a : A)
| Raise (e : exn).

Arguments Return {A} a.
Arguments Raise {A} e.

Definition bind {A B : Type} (m : result A) (k : A -> result B) : result B :=
  match m with
  | Return a => k a
  | Raise e => Raise e
  end.

Notation "'do' x <- m ; k" := (bind m (fun x => k))
  (at level 10, x name, m at level 100, k at level 200).

(** [str(e)]. *)
Definition exn_str (e : exn) : string :=
  match e with
  | OSError m | JSONDecodeError m | UnicodeDecodeError m
  | UnicodeEncodeError m | ValueError m
  | TypeError m | AttributeError m | KeyError m | IndexError m
  | OverflowError m => m
  end.

(** [except ValueError]. *)
Definition is_ValueError (e : exn) : bool :=
  match e with
  | ValueError _ | JSONDecodeError _ | UnicodeDecodeError _
  | UnicodeEncodeError _ => true
  | _ => false
  end.

(** [except (IOError, json.JSONDecodeError)]. *)
Definition is_IOError_or_JSONDecodeError (e : exn) : bool :=
  match e with
  | OSError _ | JSONDecodeError _ => true
  | _ => false
  end.

(** ** Decoded JSON and the interpreter's floats

    [json.load] yields dicts, lists, strings, ints, floats, booleans and
    [None].  A dict is kept as the list of its items.  The float type and the
    conversions the interpreter performs on it ([float(x)], [x != 0],
    [repr]) belong to the Python runtime, not to this module, and so does
    the Unicode database that tells which characters are decimal digits:
    they are the fields of [PyRuntime], and every statement below holds for
    any runtime. *)

Inductive jvalue (F : Type) : Type :=
| JNull
| JBool (b : bool)
| JInt (z : Z)
| JFloat (f : F)
| JStr (s : string)
| JList (items : list (jvalue F))
| JDict (items : list (string * jvalue F)).

Arguments JNull {F}.
Arguments JBool {F} b.
Arguments JInt {F} z.
Arguments JFloat {F} f.
Arguments JStr {F} s.
Arguments JList {F} items.
Arguments JDict {F} items.

Class PyRuntime : Type := {
  pyfloat : Type;
  (** [float(z)] of an int; [None] is [OverflowError]. *)
  float_of_int : Z -> option pyfloat;
  (** [float(s)] of a str; [None] is [ValueError]. *)
  float_of_str : string -> option pyfloat;
  (** [x == 0]. *)
  float_is_zero : pyfloat -> bool;
  (** [repr(x)], which is also [str(x)] and [format(x, "")]. *)
  float_repr : pyfloat -> string;
  (** [repr(v)] of a decoded value. *)
  py_repr : jvalue pyfloat -> string;
  (** The value, [0] to [9], of a code point above ASCII that is a decimal
      digit. *)
  unicode_decimal : Z -> option Z;
  (** [float(0) == 0]. *)
  float_of_zero : exists f, float_of_int 0 = Some f /\ float_is_zero f = true
}.

Abbreviation json := (jvalue pyfloat).

(** ** The file system the module observes

    The data directory is the list of its entries in [os.listdir] order
    ([None] when the directory itself is missing).  An entry is a regular
    file with its bytes, a folder, or a link whose target is gone (listed,
    but [os.path.exists] is false).  A path [os.path.join(DATA_DIR, name)]
    is identified by its [name]: every name the module joins to [DATA_DIR]
    is free of separators.

    A LoRA root is a directory tree; a file of it is represented by what
    opening it as UTF-8 and [json.load] give.  The metadata file of the
    downloader is absent, unreadable ([open] raises [OSError]) or present
    with such a content.  [lora_search_path] is the list the downloader's
    [_load_metadata()] returns under the key "lora_search_path". *)

Inductive node : Type :=
| File (bytes : string)
| Folder
| BrokenLink.

Inductive content `{PyRuntime} : Type :=
| Misencoded
| Malformed
| Parsed (v : json).

Inductive tree `{PyRuntime} : Type :=
| Leaf (c : content)
| Dir (entries : list (string * tree)).

Inductive meta_file `{PyRuntime} : Type :=
| Absent
| Unreadable
| Present (c : content).

Record world `{PyRuntime} : Type := {
  data_dir : option (list (string * node));
  lora_search_path : list string;
  lora_roots : list (string * tree);
  csv_meta : meta_file
}.

(** Lookup of a name in a directory listing. *)
Fixpoint entry {A : Type} (name : string) (l : list (string * A)) : option A :=
  match l with
  | [] => None
  | (n, a) :: l' => if String.eqb name n then Some a else entry name l'
  end.

Definition has_entry {A : Type} (name : string) (l : list (string * A)) : bool :=
  match entry name l with
  | Some _ => true
  | None => false
  end.

Section FileSystem.
Context `{PyRuntime}.

(** [os.path.exists(os.path.join(DATA_DIR, name))]. *)
Definition data_exists (w : world) (name : string) : bool :=
  match data_dir w with
  | None => false
  | Some es =>
      match entry name es with
      | Some (File _) | Some Folder => true
      | Some BrokenLink | None => false
      end
  end.

(** [os.listdir(DATA_DIR)]. *)
Definition listdir (w : world) : result (list string) :=
  match data_dir w with
  | None => Raise (OSError "No such file or directory")
  | Some es => Return (map fst es)
  end.

(** Replacing the first entry called [name], or adding it at the end. *)
Fixpoint put (name : string) (n : node) (es : list (string * node))
  : list (string * node) :=
  match es with
  | [] => [(name, n)]
  | (m, x) :: es' =>
      if String.eqb name m then (m, n) :: es' else (m, x) :: put name n es'
  end.

(** The world with another content of its data directory. *)
Definition set_data_dir (w : world) (es : list (string * node)) : world :=
  {| data_dir := Some es;
     lora_search_path := lora_search_path w;
     lora_roots := lora_roots w;
     csv_meta := csv_meta w |}.

(** [open(os.path.join(DATA_DIR, name), "w")] and what the file holds when
    it is closed again, [text]: the file is created or truncated; a folder
    of that name, or a missing data directory, makes [open] raise, and
    nothing is touched.  (The device takes the bytes: a full disk is not
    modelled.) *)
Definition write_data_file (w : world) (name text : string) : result world :=
  match data_dir w with
  | None => Raise (OSError "No such file or directory")
  | Some es =>
      match entry name es with
      | Some Folder => Raise (OSError "Is a directory")
      | _ => Return (set_data_dir w (put name (File text) es))
      end
  end.

End FileSystem.

(** ** Python values the handlers build *)

(** The values of a per-source status dict: a flag or a list of file names. *)
Inductive field : Type :=
| FBool (b : bool)
| FList (l : list string).

(** [d[k]] on a dict with string keys. *)
Definition getitem {V : Type} (d : gmap string V) (k : string) : result V :=
  match d !! k with
  | Some v => Return v
  | None => Raise (KeyError k)
  end.

(** [len(x)] of a status field. *)
Definition len (x : field) : result Z :=
  match x with
  | FList l => Return (Z.of_nat (length l))
  | FBool _ => Raise (TypeError "object of type 'bool' has no len()")
  end.

(** [x[i]] of a status field, for [0 <= i < len(x)]. *)
Definition index_field (x : field) (i : Z) : result string :=
  match x with
  | FList l =>
      match nth_error l (Z.to_nat i) with
      | Some f => Return f
      | None => Raise (IndexError "list index out of range")
      end
  | FBool _ => Raise (TypeError "'bool' object is not subscriptable")
  end.

(** ** The directory scanner: [get_csv_file_status] *)

Definition base_file (prefix suffix : string) : string :=
  prefix +:+ "_" +:+ suffix +:+ ".csv".

(** [[f for f in os.listdir(DATA_DIR) if f.startswith(prefix) and
    f.endswith(".csv")]] *)
Definition all_csv_files (prefix : string) (listing : list string) : list string :=
  List.filter (fun f => startswith f prefix && endswith f ".csv") listing.

(** One turn of the loop over [all_csv_files]; the pair is
    [(tags_extra_files, cooccurrence_extra_files)]. *)
Definition classify (base_tags_file base_cooccurrence_file : string)
    (acc : list string * list string) (filename : string)
  : list string * list string :=
  if in_list filename [base_tags_file; base_cooccurrence_file] then acc
  else if contains (lower filename) COOCCURRENCE_SUFFIX then (fst acc, snd acc ++ [filename])
  else if contains (lower filename) TAGS_SUFFIX then (fst acc ++ [filename], snd acc)
  else acc.

(** The loop: [(tags_extra_files, cooccurrence_extra_files)] at its end. *)
Definition extra_files (prefix : string) (listing : list string)
  : list string * list string :=
  fold_left
    (classify (base_file prefix TAGS_SUFFIX) (base_file prefix COOCCURRENCE_SUFFIX))
    (all_csv_files prefix listing) ([], []).

(** The candidate extra files: the names of [all_csv_files] the loop does not
    skip as base files. *)
Definition extra_candidates (prefix : string) (listing : list string) : list string :=
  List.filter
    (fun f => negb (in_list f [base_file prefix TAGS_SUFFIX;
                               base_file prefix COOCCURRENCE_SUFFIX]))
    (all_csv_files prefix listing).

Definition initial_status : gmap string field :=
  {[ "base_tags" := FBool false; "extra_tags" := FList [];
     "base_cooccurrence" := FBool false; "extra_cooccurrence" := FList [] ]}.

Section Scanner.
Context `{PyRuntime}.

(** The dict stored at [data[prefix]], given the listing of the data
    directory. *)
Definition source_status (w : world) (prefix : string) (listing : list string)
  : gmap string field :=
  let base_tags_file := base_file prefix TAGS_SUFFIX in
  let base_cooccurrence_file := base_file prefix COOCCURRENCE_SUFFIX in
  let tags_base_exists := data_exists w base_tags_file in
  let cooccurrence_base_exists := data_exists w base_cooccurrence_file in
  let extra := extra_files prefix listing in
  {[ "base_tags" := FBool tags_base_exists;
     "extra_tags" := FList (fst extra);
     "base_cooccurrence" := FBool cooccurrence_base_exists;
     "extra_cooccurrence" := FList (snd extra) ]}.

(** The body of [for prefix in [DANBOORU_PREFIX, E621_PREFIX]]. *)
Definition scan_source (w : world) (prefix : string) : result (gmap string field) :=
  do listing <- listdir w ;
  Return (source_status w prefix listing).

Definition get_csv_file_status (w : world)
  : result (gmap string (gmap string field)) :=
  let data : gmap string (gmap string field) :=
    {[ DANBOORU_PREFIX := initial_status; E621_PREFIX := initial_status ]} in
  fold_left
    (fun acc prefix =>
       do data <- acc ;
       do status <- scan_source w prefix ;
       Return (<[prefix := status]> data))
    [DANBOORU_PREFIX; E621_PREFIX] (Return data).

End Scanner.

(** ** [int(s)] on a string

    [int] reads a str of ASCII characters as it stands: white space (tab to
    carriage return, and the blank) is stripped at both ends, then come an
    optional sign and decimal digits, between which single underscores may
    stand; more than 4300 digits are refused (the interpreter's default
    limit).  A str with a character outside ASCII is rewritten first: such a
    character becomes a blank when it is white space, the ASCII digit of its
    value when it is a decimal digit of another script, and a question mark,
    at which the text is cut, when it is neither.  What [int] cannot read
    raises [ValueError]. *)

Definition is_space (c : ascii) : bool :=
  let n := nat_of_ascii c in
  ((Nat.leb 9 n && Nat.leb n 13) || Nat.eqb n 32)%bool.

Fixpoint lstrip (s : string) : string :=
  match s with
  | String c s' => if is_space c then lstrip s' else s
  | EmptyString => EmptyString
  end.

Fixpoint reverse (s acc : string) : string :=
  match s with
  | EmptyString => acc
  | String c s' => reverse s' (String c acc)
  end.

Definition strip (s : string) : string :=
  reverse (lstrip (reverse (lstrip s) "")) "".

Definition digit (c : ascii) : option Z :=
  let n := nat_of_ascii c in
  if (Nat.leb 48 n && Nat.leb n 57)%bool then Some (Z.of_nat n - 48) else None.

(** [after_digit] tells whether the previous character was a digit: an
    underscore is accepted only between two digits. *)
Fixpoint digits (s : string) (acc : Z) (after_digit : bool) : option Z :=
  match s with
  | EmptyString => if after_digit then Some acc else None
  | String c s' =>
      match digit c with
      | Some d => digits s' (10 * acc + d) true
      | None =>
          if (Ascii.eqb c "_" && after_digit)%bool then digits s' acc false
          else None
      end
  end.

(** How many decimal digits [s] holds. *)
Fixpoint count_digits (s : string) : nat :=
  match s with
  | EmptyString => O
  | String c s' =>
      match digit c with
      | Some _ => S (count_digits s')
      | None => count_digits s'
      end
  end.

(** The integer an ASCII text spells. *)
Definition read_int (s : string) : option Z :=
  if Nat.ltb 4300 (count_digits s) then None
  else
    match strip s with
    | String "-" s' => option_map Z.opp (digits s' 0 false)
    | String "+" s' => digits s' 0 false
    | s' => digits s' 0 false
    end.

(** [ord(c)] of a byte. *)
Definition ord (c : ascii) : Z := Z.of_nat (nat_of_ascii c).

Fixpoint is_ascii (s : string) : bool :=
  match s with
  | EmptyString => true
  | String c s' => (ord c <? 128) && is_ascii s'
  end.

(** The payload of a continuation byte of UTF-8. *)
Definition continuation (c : ascii) : option Z :=
  if (128 <=? ord c) && (ord c <=? 191) then Some (ord c - 128) else None.

(** The code points of a str, read back from its UTF-8 form: one to four
    bytes each, in the shortest form ([None] for bytes that are the form of
    no str). *)
Fixpoint code_points (s : string) : option (list Z) :=
  match s with
  | EmptyString => Some []
  | String c s1 =>
      if ord c <? 128 then option_map (cons (ord c)) (code_points s1)
      else if ord c <? 224 then
        match s1 with
        | String c1 s2 =>
            match continuation c1 with
            | Some a =>
                let cp := (ord c - 192) * 64 + a in
                if 128 <=? cp then option_map (cons cp) (code_points s2) else None
            | None => None
            end
        | EmptyString => None
        end
      else if ord c <? 240 then
        match s1 with
        | String c1 (String c2 s3) =>
            match continuation c1, continuation c2 with
            | Some a, Some b =>
                let cp := ((ord c - 224) * 64 + a) * 64 + b in
                if 2048 <=? cp then option_map (cons cp) (code_points s3) else None
            | _, _ => None
            end
        | _ => None
        end
      else
        match s1 with
        | String c1 (String c2 (String c3 s4)) =>
            match continuation c1, continuation c2, continuation c3 with
            | Some a, Some b, Some d =>
                let cp := (((ord c - 240) * 64 + a) * 64 + b) * 64 + d in
                if (65536 <=? cp) && (cp <=? 1114111)
                then option_map (cons cp) (code_points s4) else None
            | _, _, _ => None
            end
        | _ => None
        end
  end.

(** The white space above ASCII: NEL, the no-break space, the Ogham space
    mark, the spaces from the en quad to the hair space, the line and the
    paragraph separator, the narrow no-break space, the medium mathematical
    space and the ideographic space. *)
Definition unicode_space (cp : Z) : bool :=
  existsb (Z.eqb cp) [133; 160; 5760; 8232; 8233; 8239; 8287; 12288]
  || ((8192 <=? cp) && (cp <=? 8202)).

Section Int.
Context `{PyRuntime}.

(** The ASCII text [int] reads in place of a str with a character outside
    ASCII. *)
Fixpoint to_ascii (cps : list Z) : string :=
  match cps with
  | [] => ""
  | cp :: cps' =>
      if cp <? 127 then String (ascii_of_nat (Z.to_nat cp)) (to_ascii cps')
      else if unicode_space cp then String " " (to_ascii cps')
      else
        match unicode_decimal cp with
        | Some d => String (ascii_of_nat (Z.to_nat (48 + d))) (to_ascii cps')
        | None => "?"
        end
  end.

Definition parse_int (s : string) : option Z :=
  if is_ascii s then read_int s
  else
    match code_points s with
    | Some cps => read_int (to_ascii cps)
    | None => None
    end.

Definition py_int (s : string) : result Z :=
  match parse_int s with
  | Some z => Return z
  | None => Raise (ValueError ("invalid literal for int() with base 10: " +:+ s))
  end.

End Int.

(** ** Responses *)

Section Handlers.
Context `{PyRuntime}.

(** The argument of [web.json_response]: a dict of JSON values, or the
    status document of the listing endpoint. *)
Inductive body : Type :=
| Obj (fields : list (string * json))
| StatusDoc (d : gmap string (gmap string field)).

(** [web.json_response(data, status=...)] (200 when no status is given), and
    [web.FileResponse(os.path.join(DATA_DIR, name))]. *)
Inductive response : Type :=
| json_response (data : body) (status : Z)
| FileResponse (name : string).

Definition error_body (msg : string) : body := Obj [("error", JStr msg)].

(** What the server sends for a [FileResponse] whose path is a regular file:
    status 200 and the bytes of the file. *)
Definition sent_file (w : world) (name : string) : option (Z * string) :=
  match data_dir w with
  | Some es =>
      match entry name es with
      | Some (File bytes) => Some (200, bytes)
      | _ => None
      end
  | None => None
  end.

(** The status a response is sent with; for a [FileResponse] it is decided
    when the file is sent. *)
Definition status_code (w : world) (r : response) : option Z :=
  match r with
  | json_response _ status => Some status
  | FileResponse name => option_map fst (sent_file w name)
  end.

(** The bytes of a regular file of the data directory. *)
Definition file_bytes (w : world) (name : string) : option string :=
  match data_dir w with
  | Some es =>
      match entry name es with
      | Some (File bytes) => Some bytes
      | _ => None
      end
  | None => None
  end.

(** [try: ... except <classes>: handler]. *)
Definition try_except {A : Type} (m : result A) (classes : exn -> bool)
    (handler : exn -> result A) : result A :=
  match m with
  | Return a => Return a
  | Raise e => if classes e then handler e else Raise e
  end.

(** *** [GET /autocomplete-plus/csv/{source}/{suffix}/base] *)

Definition get_base_tags_file (w : world) (source suffix : string) : response :=
  if negb (in_list source [DANBOORU_PREFIX; E621_PREFIX; LORA_PREFIX])
     || negb (in_list suffix [TAGS_SUFFIX; COOCCURRENCE_SUFFIX])
  then json_response (error_body "Invalid tag source or suffix") 400
  else
    let file_path := base_file source suffix in
    if negb (data_exists w file_path)
    then json_response (error_body "Base tags file not found") 404
    else FileResponse file_path.

(** *** [GET /autocomplete-plus/csv/{source}/{suffix}/extra/{index}] *)

Definition get_extra_tags_file (w : world) (source suffix index : string)
  : result response :=
  try_except
    (do csv_file_status <- get_csv_file_status w ;
     if negb (in_list source [DANBOORU_PREFIX; E621_PREFIX])
        || negb (in_list suffix [TAGS_SUFFIX; COOCCURRENCE_SUFFIX])
     then Return (json_response (error_body "Invalid tag source or suffix") 400)
     else
       do index <- py_int index ;
       do out_of_range <-
         (if index <? 0 then Return true
          else
            do status <- getitem csv_file_status source ;
            do files <- getitem status ("extra_" +:+ suffix) ;
            do n <- len files ;
            Return (index >=? n)) ;
       if (out_of_range : bool)
       then Return (json_response (error_body "Invalid index") 404)
       else
         do status <- getitem csv_file_status source ;
         do files <- getitem status ("extra_" +:+ suffix) ;
         do file_path <- index_field files index ;
         if negb (data_exists w file_path)
         then Return (json_response (error_body "Extra tags file not found") 404)
         else Return (FileResponse file_path))
    is_ValueError
    (fun _ => Return (json_response (error_body "Invalid index format") 400)).

End Handlers.

(** ** Paths ([posixpath]) *)

(** [os.path.join(a, b)]. *)
Definition path_join (a b : string) : string :=
  if startswith b "/" then b
  else if String.eqb a "" || endswith a "/" then a +:+ b
  else a +:+ "/" +:+ b.

(** Index of the last "." of [s], counting from [i]. *)
Fixpoint last_dot (s : string) (i : nat) (found : option nat) : option nat :=
  match s with
  | EmptyString => found
  | String c s' => last_dot s' (S i) (if Ascii.eqb c "." then Some i else found)
  end.

Fixpoint all_dots (s : string) : bool :=
  match s with
  | EmptyString => true
  | String c s' => Ascii.eqb c "." && all_dots s'
  end.

(** [os.path.splitext(name)[0]] for a name without separators: the text
    before the last dot, unless only dots stand before it. *)
Definition splitext_root (name : string) : string :=
  match last_dot name 0 None with
  | None => name
  | Some d =>
      let stem := String.substring 0 d name in
      if all_dots stem then name else stem
  end.

(** ** The LoRA CSV synthesizer: [generate_lora_csv] *)

Section Synthesizer.
Context `{PyRuntime}.

(** [key in v] for a str [key]. *)
Definition py_in (key : string) (v : json) : result bool :=
  match v with
  | JDict items => Return (has_entry key items)
  | JList items =>
      Return (existsb (fun x => match x with JStr s => String.eqb key s | _ => false end) items)
  | JStr s => Return (contains s key)
  | _ => Raise (TypeError "argument is not iterable")
  end.

(** [v[key]] for a str [key]. *)
Definition subscript (v : json) (key : string) : result json :=
  match v with
  | JDict items =>
      match entry key items with
      | Some x => Return x
      | None => Raise (KeyError key)
      end
  | JList _ => Raise (TypeError "list indices must be integers or slices, not str")
  | JStr _ => Raise (TypeError "string indices must be integers, not 'str'")
  | _ => Raise (TypeError "object is not subscriptable")
  end.

(** [v.get(key, default)]. *)
Definition py_get (v : json) (key : string) (default : json) : result json :=
  match v with
  | JDict items =>
      match entry key items with
      | Some x => Return x
      | None => Return default
      end
  | _ => Raise (AttributeError "object has no attribute 'get'")
  end.

(** [float(v)]. *)
Definition py_float (v : json) : result pyfloat :=
  match v with
  | JFloat f => Return f
  | JInt z =>
      match float_of_int z with
      | Some f => Return f
      | None => Raise (OverflowError "int too large to convert to float")
      end
  | JBool b =>
      match float_of_int (if b then 1 else 0) with
      | Some f => Return f
      | None => Raise (OverflowError "int too large to convert to float")
      end
  | JStr s =>
      match float_of_str s with
      | Some f => Return f
      | None => Raise (ValueError ("could not convert string to float: " +:+ s))
      end
  | _ => Raise (TypeError "float() argument must be a string or a real number")
  end.

(** [str(v)], as an f-string formats a value. *)
Definition py_str (v : json) : string :=
  match v with
  | JStr s => s
  | _ => py_repr v
  end.

(** A row of [write_data]: [(basename, activation_text, preview_url)]. *)
Definition row : Type := string * json * string.

(** [os.walk(top)]: each directory with its path and its entries, parents
    first; the files of a directory are its entries that are no folders. *)
Fixpoint walk (top : string) (t : tree) : list (string * list (string * tree)) :=
  match t with
  | Leaf _ => []
  | Dir entries =>
      (top, entries)
        :: flat_map (fun e => walk (path_join top (fst e)) (snd e)) entries
  end.

Definition is_leaf (t : tree) : bool :=
  match t with
  | Leaf _ => true
  | Dir _ => false
  end.

(** [[x for x in files if x.endswith('.json')]] *)
Definition json_files (entries : list (string * tree)) : list string :=
  List.filter (fun x => endswith x ".json")
    (map fst (List.filter (fun e => is_leaf (snd e)) entries)).

(** [with open(json_filename, 'r', newline='', encoding='utf8') as f:
    json.load(f)] for a file of the directory. *)
Definition load_json (entries : list (string * tree)) (file : string) : result json :=
  match entry file entries with
  | Some (Leaf (Parsed v)) => Return v
  | Some (Leaf Malformed) => Raise (JSONDecodeError "Expecting value")
  | Some (Leaf Misencoded) => Raise (UnicodeDecodeError "invalid start byte")
  | Some (Dir _) => Raise (OSError "Is a directory")
  | None => Raise (OSError "No such file or directory")
  end.

(** The preview image of a sidecar: the sibling [basename + '.png'] when it
    exists, else the empty string. *)
Definition preview_of (root : string) (entries : list (string * tree))
    (basename : string) : string :=
  let preview_url := path_join root (basename +:+ ".png") in
  if negb (has_entry (basename +:+ ".png") entries) then "" else preview_url.

(** The activation text of a row: prefixed with the weight tag when the
    weight is not zero. *)
Definition annotate (basename : string) (preferred_weight : pyfloat)
    (activation_text : json) : json :=
  if negb (float_is_zero preferred_weight)
  then JStr ("<lora:" +:+ basename +:+ ":" +:+ float_repr preferred_weight
               +:+ ">" +:+ py_str activation_text)
  else activation_text.

(** The body of the loop over the JSON files of one directory. *)
Definition add_sidecar (root : string) (entries : list (string * tree))
    (write_data : list row) (file : string) : result (list row) :=
  let basename := splitext_root file in
  let preview_url := preview_of root entries basename in
  do json_data <- load_json entries file ;
  do found <- py_in "activation text" json_data ;
  if negb found then Return write_data
  else
    do activation_text <- subscript json_data "activation text" ;
    do weight <- py_get json_data "preferred weight" (JInt 0) ;
    do preferred_weight <- py_float weight ;
    let activation_text := annotate basename preferred_weight activation_text in
    Return (write_data ++ [(basename, activation_text, preview_url)]).

(** A [for] loop whose body may raise. *)
Definition for_each {A B : Type} (l : list A) (body : B -> A -> result B) (init : B)
  : result B :=
  fold_left (fun acc a => do b <- acc ; body b a) l (Return init).

(** The loop over [os.walk(lora_path)]. *)
Definition add_root (w : world) (write_data : list row) (lora_path : string)
  : result (list row) :=
  match entry lora_path (lora_roots w) with
  | None => Return write_data
  | Some t =>
      for_each (walk lora_path t)
        (fun write_data d =>
           for_each (json_files (snd d)) (add_sidecar (fst d) (snd d)) write_data)
        write_data
  end.

(** [csv.writer(f).writerows(write_data)] with the default dialect: a [None]
    field is empty, another non-string is its [str]; a field with a comma, a
    quote or a line break is quoted, its quotes doubled; a row ends in
    CR LF. *)
Definition csv_field (v : json) : string :=
  match v with
  | JNull => ""
  | JStr s => s
  | _ => py_repr v
  end.

Definition dquote : ascii := ascii_of_nat 34.

Definition special (c : ascii) : bool :=
  Ascii.eqb c "," || Ascii.eqb c dquote || Ascii.eqb c "013" || Ascii.eqb c "010".

Fixpoint needs_quotes (s : string) : bool :=
  match s with
  | EmptyString => false
  | String c s' => special c || needs_quotes s'
  end.

Fixpoint double_quotes (s : string) : string :=
  match s with
  | EmptyString => EmptyString
  | String c s' =>
      if Ascii.eqb c dquote then String c (String c (double_quotes s'))
      else String c (double_quotes s')
  end.

Definition csv_quote (s : string) : string :=
  if needs_quotes s then String dquote (double_quotes s) +:+ String dquote ""
  else s.

Definition csv_line (r : row) : string :=
  let '(basename, activation_text, preview_url) := r in
  csv_quote basename +:+ "," +:+ csv_quote (csv_field activation_text) +:+ ","
    +:+ csv_quote preview_url +:+ String "013" (String "010" "").

Fixpoint csv_text (rows : list row) : string :=
  match rows with
  | [] => ""
  | r :: rows' => csv_line r +:+ csv_text rows'
  end.

(** The writer hands the file one line per row, and the file encodes each
    line as it comes: a row whose line UTF-8 cannot encode raises, and the
    file, closed by the [with], keeps the lines of the rows before it. *)
Definition all_encodable (rows : list row) : bool :=
  forallb (fun r => encodable (csv_line r)) rows.

Fixpoint written_lines (rows : list row) : string :=
  match rows with
  | [] => ""
  | r :: rows' =>
      if encodable (csv_line r) then csv_line r +:+ written_lines rows' else ""
  end.

(** [with open(os.path.join(DATA_DIR, filename), "w", encoding='utf8') as f:
    csv.writer(f).writerows(write_data)] *)
Definition write_csv (w : world) (filename : string) (write_data : list row)
  : result unit * world :=
  match write_data_file w filename (written_lines write_data) with
  | Raise e => (Raise e, w)
  | Return w' =>
      if all_encodable write_data then (Return tt, w')
      else (Raise (UnicodeEncodeError "surrogates not allowed"), w')
  end.

(** [generate_lora_csv(os.path.join(DATA_DIR, filename))]: the flag it
    returns, or the exception it raises, and the world it leaves. *)
Definition generate_lora_csv (w : world) (filename : string) : result bool * world :=
  let lora_config := lora_search_path w in
  if Nat.eqb (length lora_config) 0 then (Return false, w)
  else
    match for_each lora_config (add_root w) [] with
    | Raise e => (Raise e, w)
    | Return write_data =>
        match write_csv w filename write_data with
        | (Raise e, w') => (Raise e, w')
        | (Return _, w') => (Return true, w')
        end
    end.



(** A sidecar that cannot be decoded, or that has an activation text and a
    preferred weight [float] does not convert. *)
Definition bad_sidecar (entries : list (string * tree)) (file : string) : Prop :=
  entry file entries = Some (Leaf Malformed)
  \/ entry file entries = Some (Leaf Misencoded)
  \/ exists items text v e,
       entry file entries = Some (Leaf (Parsed (JDict items)))
       /\ entry "activation text" items = Some text
       /\ entry "preferred weight" items = Some v
       /\ py_float v = Raise e.

(** What a loop body adds to the rows does not depend on the rows so far. *)
Definition appends {A : Type} (body : list row -> A -> result (list row)) : Prop :=
  forall rows a,
    body rows a = do new <- body [] a ; Return (rows ++ new).

End Synthesizer.

(** ** The metadata reader and the remaining endpoints *)

Section Metadata.
Context `{PyRuntime}.

(** Truth value of a decoded value, as in [if datasets and ...]. *)
Definition truthy (v : json) : bool :=
  match v with
  | JNull => false
  | JBool b => b
  | JInt z => negb (z =? 0)
  | JFloat f => negb (float_is_zero f)
  | JStr s => negb (String.eqb s "")
  | JList items => negb (Nat.eqb (length items) 0)
  | JDict items => negb (Nat.eqb (length items) 0)
  end.

(** [len(v)]. *)
Definition py_len (v : json) : result Z :=
  match v with
  | JStr s => Return (Z.of_nat (String.length s))
  | JList items => Return (Z.of_nat (length items))
  | JDict items => Return (Z.of_nat (length items))
  | _ => Raise (TypeError "object has no len()")
  end.

(** [v[0]]. *)
Definition first_item (v : json) : result json :=
  match v with
  | JList (x :: _) => Return x
  | JList [] => Raise (IndexError "list index out of range")
  | JStr (String c _) => Return (JStr (String c ""))
  | JStr EmptyString => Raise (IndexError "string index out of range")
  | JDict _ => Raise (KeyError "0")
  | _ => Raise (TypeError "object is not subscriptable")
  end.

(** [os.path.exists(dl.CSV_META_FILE)]. *)
Definition meta_exists (w : world) : bool :=
  match csv_meta w with
  | Absent => false
  | _ => true
  end.

(** [with open(dl.CSV_META_FILE, "r", encoding="utf-8") as f:
    json.load(f)]. *)
Definition load_metadata (w : world) : result json :=
  match csv_meta w with
  | Absent => Raise (OSError "No such file or directory")
  | Unreadable => Raise (OSError "Permission denied")
  | Present Misencoded => Raise (UnicodeDecodeError "invalid start byte")
  | Present Malformed => Raise (JSONDecodeError "Expecting value")
  | Present (Parsed v) => Return v
  end.

(** [None] is [JNull]. *)
Definition get_last_check_time_from_metadata (w : world) : result json :=
  try_except
    (if negb (meta_exists w) then Return JNull
     else
       do metadata <- load_metadata w ;
       do datasets <- py_get metadata "hf_datasets" (JList []) ;
       do nonempty <-
         (if truthy datasets then do n <- py_len datasets ; Return (n >? 0)
          else Return false) ;
       if (nonempty : bool) then
         do first <- first_item datasets ;
         py_get first "last_remote_check_timestamp" JNull
       else Return JNull)
    is_IOError_or_JSONDecodeError
    (fun _ => Return JNull).

Definition is_None (v : json) : bool :=
  match v with
  | JNull => true
  | _ => false
  end.

(** *** [GET /autocomplete-plus/csv/last-check-time] *)

Definition get_last_check_time (w : world) : result response :=
  try_except
    (if negb (meta_exists w) then
       Return (json_response
                 (Obj [("last_check_time", JNull);
                       ("message", JStr "csv_meta.json file not found")]) 200)
     else
       do last_check_time <- get_last_check_time_from_metadata w ;
       if negb (is_None last_check_time) then
         Return (json_response (Obj [("last_check_time", last_check_time)]) 200)
       else
         Return (json_response
                   (Obj [("last_check_time", JNull);
                         ("message", JStr "No datasets found in metadata")]) 200))
    is_IOError_or_JSONDecodeError
    (fun e =>
       Return (json_response
                 (Obj [("last_check_time", JNull); ("error", JStr (exn_str e))]) 500)).

(** *** [GET /autocomplete-plus/csv] *)

(** The dict the handler copies out of the scanner's for one source. *)
Definition copy_status (csv_file_status : gmap string (gmap string field))
    (prefix : string) : result (gmap string field) :=
  do status <- getitem csv_file_status prefix ;
  do base_tags <- getitem status "base_tags" ;
  do extra_tags <- getitem status "extra_tags" ;
  do base_cooccurrence <- getitem status "base_cooccurrence" ;
  do extra_cooccurrence <- getitem status "extra_cooccurrence" ;
  Return {[ "base_tags" := base_tags; "extra_tags" := extra_tags;
            "base_cooccurrence" := base_cooccurrence;
            "extra_cooccurrence" := extra_cooccurrence ]}.

Definition get_csv_list (w : world) : result response * world :=
  match
    (do csv_file_status <- get_csv_file_status w ;
     do danbooru <- copy_status csv_file_status DANBOORU_PREFIX ;
     do e621 <- copy_status csv_file_status E621_PREFIX ;
     Return ({[ DANBOORU_PREFIX := danbooru; E621_PREFIX := e621 ]}
               : gmap string (gmap string field)))
  with
  | Raise e => (Raise e, w)
  | Return response =>
      match generate_lora_csv w (base_file LORA_PREFIX TAGS_SUFFIX) with
      | (Raise e, w') => (Raise e, w')
      | (Return generated, w') =>
          let response :=
            if generated
            then <[LORA_PREFIX := {[ "base_tags" := FBool true ]}]> response
            else response in
          (Return (json_response (StatusDoc response) 200), w')
      end
  end.

End Metadata.

(** *** [POST /autocomplete-plus/csv/force-check-updates]

    The downloader is another module: [run_check_and_download] stands for
    [dl.Downloader()] followed by [run_check_and_download(force_check=True)],
    with what the call returns or raises and the world it leaves.  Every
    exception class modelled here derives from [Exception]. *)

Definition is_Exception (e : exn) : bool := true.

Section ForceCheck.
Context `{PyRuntime}.
Variable run_check_and_download : world -> result unit * world.

Definition force_check_failed (e : exn) : response :=
  json_response (Obj [("success", JBool false); ("error", JStr (exn_str e))]) 500.

Definition force_check_csv_updates (w : world) : result response * world :=
  let '(checked, w') := run_check_and_download w in
  (try_except
     (do _ <- checked ;
      do last_check_time <- get_last_check_time_from_metadata w' ;
      Return (json_response
                (Obj [("success", JBool true);
                      ("message", JStr "Force check completed successfully");
                      ("last_check_time", last_check_time)]) 200))
     is_Exception
     (fun e => Return (force_check_failed e)),
   w').

End ForceCheck.

(** ** A reference runtime

    The examples below are evaluated with the decimal digits of Unicode 14
    and with floats kept as signed finite decimals [m * 10^e] (or an
    infinity, or NaN).  On decimals of at most
    fifteen significant digits in the normal range of a binary64 float this
    is what CPython's [float], [==] and [repr] compute ([float] of a string
    is read without digit-group underscores); the theorems do not depend on
    it. *)

Module Reference.

Inductive dfloat : Type :=
| Finite (neg : bool) (m : N) (e : Z)
| Inf (neg : bool)
| NaN.

(** [float(z)] overflows from the midpoint between the largest float and
    [2^1024] on. *)
Definition of_int (z : Z) : option dfloat :=
  if Z.abs z <? 2 ^ 1024 - 2 ^ 970 then Some (Finite (z <? 0) (Z.abs_N z) 0)
  else None.

(** Leading decimal digits of [s]: how many, their value, and the rest. *)
Fixpoint leading_digits (s : string) (count : nat) (acc : N) : nat * N * string :=
  match s with
  | String c s' =>
      match digit c with
      | Some d => leading_digits s' (S count) (10 * acc + Z.to_N d)%N
      | None => (count, acc, s)
      end
  | EmptyString => (count, acc, s)
  end.

Definition exponent (s : string) : option Z :=
  match s with
  | EmptyString => Some 0
  | String c s' =>
      if (Ascii.eqb c "e" || Ascii.eqb c "E")%bool then
        let '(neg, s'') :=
          match s' with
          | String "-" t => (true, t)
          | String "+" t => (false, t)
          | t => (false, t)
          end in
        match leading_digits s'' 0 0 with
        | (S _, v, EmptyString) => Some (if neg then - Z.of_N v else Z.of_N v)
        | _ => None
        end
      else None
  end.

Definition of_unsigned (neg : bool) (s : string) : option dfloat :=
  let l := lower s in
  if (String.eqb l "inf" || String.eqb l "infinity")%bool then Some (Inf neg)
  else if String.eqb l "nan" then Some NaN
  else
    let '(n1, v1, r1) := leading_digits s 0 0 in
    let '(n2, v, r2) :=
      match r1 with
      | String "." t => let '(n2, v, r2) := leading_digits t 0 v1 in (n2, v, r2)
      | _ => (O, v1, r1)
      end in
    match (n1 + n2)%nat, exponent r2 with
    | S _, Some e => Some (Finite neg v (e - Z.of_nat n2))
    | _, _ => None
    end.

Definition of_str (s : string) : option dfloat :=
  match strip s with
  | String "-" s' => of_unsigned true s'
  | String "+" s' => of_unsigned false s'
  | s' => of_unsigned false s'
  end.

Definition is_zero (x : dfloat) : bool :=
  match x with
  | Finite _ m _ => N.eqb m 0
  | _ => false
  end.

Fixpoint zeros (n : nat) : string :=
  match n with
  | O => EmptyString
  | S n' => String "0" (zeros n')
  end.

(** [s] without its leading zeros, and how many there were. *)
Fixpoint drop_zeros (s : string) (count : nat) : string * nat :=
  match s with
  | String "0" s' => drop_zeros s' (S count)
  | _ => (s, count)
  end.

Definition nat_str (n : nat) : string := DecimalString.NilZero.string_of_uint (Nat.to_uint n).

(** [repr] of a positive decimal with significant digits [ds] and value
    [0.ds * 10^decpt]. *)
Definition repr_digits (ds : string) (decpt : Z) : string :=
  let n := Z.of_nat (String.length ds) in
  if (decpt <=? -4) || (16 <? decpt) then
    let e := decpt - 1 in
    let mantissa :=
      match ds with
      | String d EmptyString => String d EmptyString
      | String d rest => String d ("." +:+ rest)
      | EmptyString => EmptyString
      end in
    let digits2 := nat_str (Z.abs_nat e) in
    mantissa +:+ "e" +:+ (if e <? 0 then "-" else "+")
      +:+ (if Nat.ltb (String.length digits2) 2 then "0" else "") +:+ digits2
  else if decpt <=? 0 then "0." +:+ zeros (Z.abs_nat decpt) +:+ ds
  else if n <=? decpt then ds +:+ zeros (Z.to_nat (decpt - n)) +:+ ".0"
  else String.substring 0 (Z.to_nat decpt) ds +:+ "."
         +:+ String.substring (Z.to_nat decpt) (Z.to_nat (n - decpt)) ds.

Definition repr_float (x : dfloat) : string :=
  match x with
  | NaN => "nan"
  | Inf neg => if neg then "-inf" else "inf"
  | Finite neg m e =>
      (if neg then "-" else "") +:+
      (if N.eqb m 0 then "0.0"
       else
         let all := DecimalString.NilZero.string_of_uint (N.to_uint m) in
         let '(rev_ds, trailing) := drop_zeros (reverse all "") 0 in
         let ds := reverse rev_ds "" in
         repr_digits ds (Z.of_nat (String.length ds) + Z.of_nat trailing + e))
  end.

Definition int_str (z : Z) : string := DecimalString.NilZero.string_of_int (Z.to_int z).

Definition hex_digit (n : nat) : ascii :=
  ascii_of_nat (if Nat.ltb n 10 then 48 + n else 87 + n).

(** [repr] of a str: single quotes, unless the text has one and no double
    quote; the quote in use, the backslash and the control characters are
    escaped. *)
Definition repr_char (quote c : ascii) : string :=
  let n := nat_of_ascii c in
  if (Ascii.eqb c quote || Ascii.eqb c "\")%bool then String "\" (String c "")
  else if Nat.eqb n 9 then "\t"
  else if Nat.eqb n 10 then "\n"
  else if Nat.eqb n 13 then "\r"
  else if (Nat.ltb n 32 || Nat.eqb n 127)%bool then
    "\x" +:+ String (hex_digit (n / 16)) (String (hex_digit (n mod 16)) "")
  else String c "".

Fixpoint escape (quote : ascii) (s : string) : string :=
  match s with
  | EmptyString => EmptyString
  | String c s' => repr_char quote c +:+ escape quote s'
  end.

Definition has_char (c : ascii) (s : string) : bool :=
  contains s (String c "").

Definition repr_str (s : string) : string :=
  let single := "'"%char in
  let double := ascii_of_nat 34 in
  let quote := if (has_char single s && negb (has_char double s))%bool
               then double else single in
  String quote (escape quote s) +:+ String quote "".

Fixpoint join (sep : string) (l : list string) : string :=
  match l with
  | [] => ""
  | [x] => x
  | x :: l' => x +:+ sep +:+ join sep l'
  end.

Fixpoint repr (v : jvalue dfloat) : string :=
  match v with
  | JNull => "None"
  | JBool b => if b then "True" else "False"
  | JInt z => int_str z
  | JFloat f => repr_float f
  | JStr s => repr_str s
  | JList items => "[" +:+ join ", " (map repr items) +:+ "]"
  | JDict items =>
      "{" +:+ join ", " (map (fun kv => repr_str (fst kv) +:+ ": " +:+ repr (snd kv)) items)
          +:+ "}"
  end.

(** The digit zero of each script with decimal digits in Unicode 14, the
    database of CPython 3.11: the nine code points after it are its digits
    one to nine. *)
Definition digit_zeros : list Z :=
  [48; 1632; 1776; 1984; 2406; 2534; 2662; 2790; 2918; 3046; 3174; 3302; 3430;
   3558; 3664; 3792; 3872; 4160; 4240; 6112; 6160; 6470; 6608; 6784; 6800; 6992;
   7088; 7232; 7248; 42528; 43216; 43264; 43472; 43504; 43600; 44016; 65296;
   66720; 68912; 69734; 69872; 69942; 70096; 70384; 70736; 70864; 71248; 71360;
   71472; 71904; 72016; 72784; 73040; 73120; 92768; 92864; 93008; 120782;
   120792; 120802; 120812; 120822; 123200; 123632; 125264; 130032].

Definition decimal_value (cp : Z) : option Z :=
  match List.find (fun zero => (zero <=? cp) && (cp <? zero + 10)) digit_zeros with
  | Some zero => Some (cp - zero)
  | None => None
  end.

#[export] Instance runtime : PyRuntime := {|
  pyfloat := dfloat;
  float_of_int := of_int;
  float_of_str := of_str;
  float_is_zero := is_zero;
  float_repr := repr_float;
  py_repr := repr;
  unicode_decimal := decimal_value;
  float_of_zero := ex_intro _ (Finite false 0 0) (conj eq_refl eq_refl)
|}.

End Reference.

(** ** Sample worlds

    The data directory of the specification's example, with one more extra
    file, and a LoRA root holding the specification's [foo.json]. *)

Module Sample.
Import Reference.

Definition data_files : list (string * node) :=
  [("danbooru_tags.csv", File "1girl,0,100");
   ("danbooru_tags_extra1.csv", File "my_tag,0,1");
   ("e621_tags_cooccurrence.csv", File "a,b,3");
   ("danbooru_tags_cooccurrence_backup.csv", File "c,d,5")].

(** [{"activation text": "foo tag", "preferred weight": 0.8}] *)
Definition foo_json : json :=
  JDict [("activation text", JStr "foo tag");
         ("preferred weight", JFloat (Finite false 8 (-1)))].

Definition lora_tree : tree :=
  Dir [("foo.json", Leaf (Parsed foo_json));
       ("foo.png", Leaf Misencoded);
       ("foo.safetensors", Leaf Misencoded)].

(** [{"hf_datasets": [{"last_remote_check_timestamp": "2025-01-01T00:00:00"}]}] *)
Definition metadata : json :=
  JDict [("hf_datasets",
          JList [JDict [("last_remote_check_timestamp", JStr "2025-01-01T00:00:00")]])].

Definition sample : world :=
  {| data_dir := Some data_files;
     lora_search_path := ["/models/loras"];
     lora_roots := [("/models/loras", lora_tree)];
     csv_meta := Present (Parsed metadata) |}.

(** The same world with another state of its LoRA root or metadata file. *)
Definition with_lora (t : tree) : world :=
  {| data_dir := Some data_files;
     lora_search_path := ["/models/loras"];
     lora_roots := [("/models/loras", t)];
     csv_meta := Present (Parsed metadata) |}.

Definition with_meta (m : meta_file) : world :=
  {| data_dir := Some data_files;
     lora_search_path := ["/models/loras"];
     lora_roots := [("/models/loras", lora_tree)];
     csv_meta := m |}.



(** [{"activation text": "bar", "preferred weight": "heavy"}] in a
    subdirectory, beside a sidecar without activation text. *)
Definition heavy_tree : tree :=
  Dir [("notes.json", Leaf (Parsed (JDict [("description", JStr "none")])));
       ("styles",
        Dir [("bar.json",
              Leaf (Parsed (JDict [("activation text", JStr "bar");
                                   ("preferred weight", JStr "heavy")])))])].

(** A root without any sidecar that has an activation text. *)
Definition silent_tree : tree :=
  Dir [("notes.json", Leaf (Parsed (JDict [("description", JStr "none")])));
       ("model.safetensors", Leaf Misencoded)].



(** The lone surrogate U+D800, and a root with two sidecars: the
    activation text of the second, written \ud800 in its file, is that
    surrogate. *)
Definition surrogate : string :=
  String (ascii_of_nat 237) (String (ascii_of_nat 160) (String (ascii_of_nat 128) "")).

Definition surrogate_tree : tree :=
  Dir [("a.json", Leaf (Parsed (JDict [("activation text", JStr "fine")])));
       ("b.json", Leaf (Parsed (JDict [("activation text", JStr surrogate)])))].

(** Two index texts: a no-break space and a fullwidth digit zero, and a
    zero after the file separator [chr(28)]. *)
Definition fullwidth_index : string :=
  String (ascii_of_nat 194) (String (ascii_of_nat 160)
    (String (ascii_of_nat 239) (String (ascii_of_nat 188) (String (ascii_of_nat 144) "")))).

Definition separator_index : string := String (ascii_of_nat 28) "0".

(** A world without data directory. *)
Definition no_data : world :=
  {| data_dir := None;
     lora_search_path := ["/models/loras"];
     lora_roots := [("/models/loras", lora_tree)];
     csv_meta := Absent |}.

(** A downloader run that leaves a metadata file whose JSON is a list, and
    one that fails. *)
Definition writes_list (w : world) : result unit * world :=
  (Return tt,
   {| data_dir := data_dir w;
      lora_search_path := lora_search_path w;
      lora_roots := lora_roots w;
      csv_meta := Present (Parsed (JList [])) |}).

Definition offline (w : world) : result unit * world :=
  (Raise (OSError "Network is unreachable"), w).

End Sample.

(** * Properties *)

(** ** Strings *)

Lemma app_cons (c : ascii) (s t : string) : String c s +:+ t = String c (s +:+ t).
Proof. reflexivity. Qed.

Lemma startswith_spec (s p : string) :
  startswith s p = true <-> exists t, s = p +:+ t.
Proof.
  revert s.
  induction p as [|c p IH]; intros s; simpl.
  - split; [intros _; exists s; reflexivity | reflexivity].
  - destruct s as [|d s].
    + split; [discriminate | intros [t Ht]; rewrite app_cons in Ht; discriminate].
    + rewrite andb_true_iff, Ascii.eqb_eq, IH. split.
      * intros [-> [t ->]]. exists t. reflexivity.
      * intros [t Ht]. rewrite app_cons in Ht. inversion Ht. split; [reflexivity | exists t; reflexivity].
Qed.

Lemma contains_spec (s p : string) :
  contains s p = true <-> exists a b, s = a +:+ p +:+ b.
Proof.
  induction s as [|c s IH]; cbn [contains].
  - rewrite orb_false_r, startswith_spec.
    split.
    + intros [t Ht]. exists "", t. exact Ht.
    + intros [a [b Hab]]. destruct a as [|x a]; [|rewrite app_cons in Hab; discriminate].
      exists b. exact Hab.
  - rewrite orb_true_iff, IH, startswith_spec. split.
    + intros [[t Ht] | [a [b Hab]]].
      * exists "", t. exact Ht.
      * exists (String c a), b. rewrite app_cons. congruence.
    + intros [a [b Hab]]. destruct a as [|x a].
      * left. exists b. exact Hab.
      * right. rewrite app_cons in Hab. exists a, b. congruence.
Qed.

Lemma endswith_spec (s p : string) :
  endswith s p = true <-> exists a, s = a +:+ p.
Proof.
  induction s as [|c s IH]; cbn [endswith].
  - rewrite orb_false_r, String.eqb_eq. split.
    + intros <-. exists "". reflexivity.
    + intros [a Ha]. destruct a as [|x a]; [exact Ha | rewrite app_cons in Ha; discriminate].
  - rewrite orb_true_iff, IH, String.eqb_eq. split.
    + intros [<- | [a Ha]].
      * exists "". reflexivity.
      * exists (String c a). rewrite app_cons. congruence.
    + intros [a Ha]. destruct a as [|x a].
      * left. exact Ha.
      * right. rewrite app_cons in Ha. exists a. congruence.
Qed.

Lemma in_list_spec (x : string) (l : list string) : in_list x l = true <-> In x l.
Proof.
  unfold in_list. rewrite existsb_exists. split.
  - intros [y [Hy Heq]]. apply String.eqb_eq in Heq. congruence.
  - intros Hx. exists x. split; [exact Hx | apply String.eqb_refl].
Qed.

Lemma in_list_false (x : string) (l : list string) : in_list x l = false <-> ~ In x l.
Proof.
  rewrite <- in_list_spec. destruct (in_list x l); split; congruence.
Qed.

(** ** The directory scanner *)

Lemma fold_classify_tags (b1 b2 : string) (l : list string)
    (acc : list string * list string) (f : string) :
  In f (fst (fold_left (classify b1 b2) l acc)) <->
  In f (fst acc) \/
  (In f l /\ in_list f [b1; b2] = false
   /\ contains (lower f) COOCCURRENCE_SUFFIX = false
   /\ contains (lower f) TAGS_SUFFIX = true).
Proof.
  revert acc. induction l as [|a l IH]; intros acc; cbn [fold_left].
  - cbn [In]. tauto.
  - rewrite IH. unfold classify. cbn [In].
    destruct (in_list a [b1; b2]) eqn:Hb;
      [|destruct (contains (lower a) COOCCURRENCE_SUFFIX) eqn:Hc;
        [|destruct (contains (lower a) TAGS_SUFFIX) eqn:Ht]];
      cbn [fst snd]; try rewrite in_app_iff; cbn [In];
      intuition (subst; congruence).
Qed.

Lemma fold_classify_cooccurrence (b1 b2 : string) (l : list string)
    (acc : list string * list string) (f : string) :
  In f (snd (fold_left (classify b1 b2) l acc)) <->
  In f (snd acc) \/
  (In f l /\ in_list f [b1; b2] = false
   /\ contains (lower f) COOCCURRENCE_SUFFIX = true).
Proof.
  revert acc. induction l as [|a l IH]; intros acc; cbn [fold_left].
  - cbn [In]. tauto.
  - rewrite IH. unfold classify. cbn [In].
    destruct (in_list a [b1; b2]) eqn:Hb;
      [|destruct (contains (lower a) COOCCURRENCE_SUFFIX) eqn:Hc;
        [|destruct (contains (lower a) TAGS_SUFFIX) eqn:Ht]];
      cbn [fst snd]; try rewrite in_app_iff; cbn [In];
      intuition (subst; congruence).
Qed.

Lemma extra_candidates_In (prefix : string) (listing : list string) (f : string) :
  In f (extra_candidates prefix listing) <->
  In f (all_csv_files prefix listing)
  /\ in_list f [base_file prefix TAGS_SUFFIX; base_file prefix COOCCURRENCE_SUFFIX] = false.
Proof.
  unfold extra_candidates. rewrite filter_In, negb_true_iff. tauto.
Qed.

(** The classification of one candidate by the loop. *)
Lemma extra_files_classifies (prefix : string) (listing : list string) (f : string) :
  In f (extra_candidates prefix listing) ->
  if contains (lower f) COOCCURRENCE_SUFFIX
  then In f (snd (extra_files prefix listing)) /\ ~ In f (fst (extra_files prefix listing))
  else if contains (lower f) TAGS_SUFFIX
  then In f (fst (extra_files prefix listing)) /\ ~ In f (snd (extra_files prefix listing))
  else ~ In f (fst (extra_files prefix listing)) /\ ~ In f (snd (extra_files prefix listing)).
Proof.
  rewrite extra_candidates_In. intros [Hall Hbase].
  unfold extra_files.
  destruct (contains (lower f) COOCCURRENCE_SUFFIX) eqn:Hc;
    [|destruct (contains (lower f) TAGS_SUFFIX) eqn:Ht];
    rewrite fold_classify_tags, fold_classify_cooccurrence; cbn [fst snd In];
    intuition congruence.
Qed.

Section ScannerFacts.
Context `{PyRuntime}.

Lemma get_csv_file_status_returns (w : world) (es : list (string * node)) :
  data_dir w = Some es ->
  exists data,
    get_csv_file_status w = Return data
    /\ data !! DANBOORU_PREFIX = Some (source_status w DANBOORU_PREFIX (map fst es))
    /\ data !! E621_PREFIX = Some (source_status w E621_PREFIX (map fst es)).
Proof.
  intros Hes. unfold get_csv_file_status, scan_source, listdir. rewrite Hes.
  cbn [fold_left bind]. eexists. split; [reflexivity|].
  split; reflexivity.
Qed.

Lemma get_csv_file_status_raises (w : world) :
  data_dir w = None ->
  get_csv_file_status w = Raise (OSError "No such file or directory").
Proof.
  intros Hes. unfold get_csv_file_status, scan_source, listdir. rewrite Hes.
  reflexivity.
Qed.

(** C3: every candidate extra file goes to the cooccurrence list when its
    lowercased name contains "tags_cooccurrence", otherwise to the tags list
    when it contains "tags", otherwise to neither list; the cooccurrence test
    comes first.  The lists are the ones the scanner stores under
    "extra_tags" and "extra_cooccurrence". *)
Theorem scanner_classifies_extra_files
    (w : world) (es : list (string * node)) (prefix f : string) :
  data_dir w = Some es ->
  In prefix [DANBOORU_PREFIX; E621_PREFIX] ->
  In f (extra_candidates prefix (map fst es)) ->
  exists data status tags cooccurrence,
    get_csv_file_status w = Return data
    /\ data !! prefix = Some status
    /\ status !! "extra_tags" = Some (FList tags)
    /\ status !! "extra_cooccurrence" = Some (FList cooccurrence)
    /\ if contains (lower f) COOCCURRENCE_SUFFIX
       then In f cooccurrence /\ ~ In f tags
       else if contains (lower f) TAGS_SUFFIX
       then In f tags /\ ~ In f cooccurrence
       else ~ In f tags /\ ~ In f cooccurrence.
Proof.
  intros Hes Hprefix Hf.
  destruct (get_csv_file_status_returns w es Hes) as [data [Hdata [Hd He]]].
  exists data, (source_status w prefix (map fst es)),
    (fst (extra_files prefix (map fst es))), (snd (extra_files prefix (map fst es))).
  split; [exact Hdata|].
  split; [destruct Hprefix as [<-|[<-|[]]]; assumption|].
  split; [reflexivity|]. split; [reflexivity|].
  apply extra_files_classifies. exact Hf.
Qed.

End ScannerFacts.

(** The loop only ever looks at the candidates: skipping the base files
    first gives the same two lists. *)
Lemma extra_files_over_candidates (prefix : string) (listing : list string) :
  extra_files prefix listing =
  fold_left
    (classify (base_file prefix TAGS_SUFFIX) (base_file prefix COOCCURRENCE_SUFFIX))
    (extra_candidates prefix listing) ([], []).
Proof.
  unfold extra_files, extra_candidates.
  generalize (all_csv_files prefix listing) as l.
  generalize (([], []) : list string * list string) as acc.
  intros acc l. revert acc.
  induction l as [|a l IH]; intros acc; [reflexivity|].
  cbn [fold_left List.filter].
  destruct (in_list a _) eqn:Hb; cbn [negb fold_left].
  - unfold classify at 2. rewrite Hb. apply IH.
  - apply IH.
Qed.

(** Whatever the scanner lists as an extra file is a candidate. *)
Lemma extra_files_are_candidates (prefix : string) (listing : list string) (f : string) :
  In f (fst (extra_files prefix listing)) \/ In f (snd (extra_files prefix listing)) ->
  In f (extra_candidates prefix listing).
Proof.
  unfold extra_files. rewrite fold_classify_tags, fold_classify_cooccurrence.
  rewrite extra_candidates_In. cbn [fst snd In]. tauto.
Qed.

(** C4 (amended): the candidate extra files of a source are exactly the
    names of the data directory that start with the source prefix and end in
    ".csv", the two base file names excepted. *)
Theorem extra_candidates_spec (prefix : string) (listing : list string) (f : string) :
  In f (extra_candidates prefix listing) <->
  In f listing
  /\ (exists t, f = prefix +:+ t)
  /\ (exists a, f = a +:+ ".csv")
  /\ f <> base_file prefix TAGS_SUFFIX
  /\ f <> base_file prefix COOCCURRENCE_SUFFIX.
Proof.
  rewrite extra_candidates_In, in_list_false. unfold all_csv_files.
  rewrite filter_In, andb_true_iff, startswith_spec, endswith_spec.
  cbn [In]. intuition congruence.
Qed.

(** C4 as the specification words it (names that contain the prefix) fails:
    a name with the prefix in its middle is no candidate, and the scanner
    lists it nowhere. *)
Lemma extra_candidates_contains_counterexample :
  In "my_danbooru_tags.csv" ["my_danbooru_tags.csv"]
  /\ contains "my_danbooru_tags.csv" DANBOORU_PREFIX = true
  /\ endswith "my_danbooru_tags.csv" ".csv" = true
  /\ "my_danbooru_tags.csv" <> base_file DANBOORU_PREFIX TAGS_SUFFIX
  /\ "my_danbooru_tags.csv" <> base_file DANBOORU_PREFIX COOCCURRENCE_SUFFIX
  /\ extra_candidates DANBOORU_PREFIX ["my_danbooru_tags.csv"] = []
  /\ extra_files DANBOORU_PREFIX ["my_danbooru_tags.csv"] = ([], []).
Proof.
  repeat split; try reflexivity; try discriminate.
  left. reflexivity.
Qed.

Lemma scanner_classifies_extra_files_witness :
  exists data status tags cooccurrence,
    get_csv_file_status Sample.sample = Return data
    /\ data !! "danbooru" = Some status
    /\ status !! "extra_tags" = Some (FList tags)
    /\ status !! "extra_cooccurrence" = Some (FList cooccurrence)
    /\ In "danbooru_tags_cooccurrence_backup.csv" cooccurrence
    /\ ~ In "danbooru_tags_cooccurrence_backup.csv" tags.
Proof.
  apply (scanner_classifies_extra_files Sample.sample Sample.data_files
           "danbooru" "danbooru_tags_cooccurrence_backup.csv").
  - reflexivity.
  - left. reflexivity.
  - vm_compute. tauto.
Defined.

(** ** The base-file endpoint *)

Section BaseFile.
Context `{PyRuntime}.

Lemma file_bytes_exists (w : world) (name bytes : string) :
  file_bytes w name = Some bytes -> data_exists w name = true.
Proof.
  unfold file_bytes, data_exists.
  destruct (data_dir w) as [es|]; [|discriminate].
  destruct (entry name es) as [[b| |]|]; congruence.
Qed.

Lemma file_bytes_sent (w : world) (name bytes : string) :
  file_bytes w name = Some bytes -> sent_file w name = Some (200, bytes).
Proof.
  unfold file_bytes, sent_file.
  destruct (data_dir w) as [es|]; [|discriminate].
  destruct (entry name es) as [[b| |]|]; congruence.
Qed.

Lemma sent_file_status (w : world) (name : string) :
  option_map fst (sent_file w name) <> Some 404.
Proof.
  unfold sent_file.
  destruct (data_dir w) as [es|]; [|discriminate].
  destruct (entry name es) as [[b| |]|]; discriminate.
Qed.

(** C1: the base-file endpoint answers 400 when the source or the suffix is
    not an allowed one; for an allowed pair it answers 404 exactly when
    {source}_{suffix}.csv does not exist in the data directory, and a file
    that is there is sent with status 200 and its own bytes. *)
Theorem get_base_tags_file_spec (w : world) (source suffix : string) :
  (~ (In source [DANBOORU_PREFIX; E621_PREFIX; LORA_PREFIX]
      /\ In suffix [TAGS_SUFFIX; COOCCURRENCE_SUFFIX]) ->
   get_base_tags_file w source suffix
   = json_response (error_body "Invalid tag source or suffix") 400)
  /\ (In source [DANBOORU_PREFIX; E621_PREFIX; LORA_PREFIX] ->
      In suffix [TAGS_SUFFIX; COOCCURRENCE_SUFFIX] ->
      (status_code w (get_base_tags_file w source suffix) = Some 404
       <-> data_exists w (base_file source suffix) = false)
      /\ (data_exists w (base_file source suffix) = false ->
          get_base_tags_file w source suffix
          = json_response (error_body "Base tags file not found") 404)
      /\ (forall bytes,
            file_bytes w (base_file source suffix) = Some bytes ->
            get_base_tags_file w source suffix = FileResponse (base_file source suffix)
            /\ sent_file w (base_file source suffix) = Some (200, bytes))).
Proof.
  unfold get_base_tags_file. split.
  - intros Hbad.
    destruct (in_list source _) eqn:Hs; [|reflexivity].
    destruct (in_list suffix _) eqn:Hx; [|reflexivity].
    apply in_list_spec in Hs, Hx. tauto.
  - intros Hs Hx.
    apply in_list_spec in Hs, Hx. rewrite Hs, Hx. cbn [negb orb].
    destruct (data_exists w (base_file source suffix)) eqn:He; cbn [negb].
    + split; [|split].
      * cbn [status_code]. split; [|discriminate].
        intros Hc. exfalso. exact (sent_file_status _ _ Hc).
      * discriminate.
      * intros bytes Hb. split; [reflexivity | apply file_bytes_sent; exact Hb].
    + split; [|split].
      * cbn [status_code]. split; reflexivity.
      * reflexivity.
      * intros bytes Hb. apply file_bytes_exists in Hb. congruence.
Qed.

End BaseFile.

Lemma get_base_tags_file_spec_witness :
  get_base_tags_file Sample.sample "danbooru" "tags" = FileResponse "danbooru_tags.csv"
  /\ sent_file Sample.sample "danbooru_tags.csv" = Some (200, "1girl,0,100").
Proof.
  destruct (get_base_tags_file_spec Sample.sample "danbooru" "tags") as [_ Hvalid].
  destruct Hvalid as [_ [_ Hfile]]; [left; reflexivity | left; reflexivity |].
  apply Hfile. reflexivity.
Defined.

(** ** The extra-file endpoint *)

Section ExtraFile.
Context `{PyRuntime}.

Lemma source_status_extra_tags (w : world) (prefix : string) (listing : list string) :
  source_status w prefix listing !! ("extra_" +:+ TAGS_SUFFIX)
  = Some (FList (fst (extra_files prefix listing))).
Proof. reflexivity. Qed.

(** No key of a status dict is "extra_tags_cooccurrence": the list of the
    cooccurrence files is stored under "extra_cooccurrence". *)
Lemma source_status_extra_cooccurrence (w : world) (prefix : string) (listing : list string) :
  source_status w prefix listing !! ("extra_" +:+ COOCCURRENCE_SUFFIX) = None
  /\ source_status w prefix listing !! "extra_cooccurrence"
     = Some (FList (snd (extra_files prefix listing))).
Proof. split; reflexivity. Qed.

Lemma scanned_source (w : world) (es : list (string * node)) (source : string) :
  data_dir w = Some es ->
  In source [DANBOORU_PREFIX; E621_PREFIX] ->
  exists data,
    get_csv_file_status w = Return data
    /\ data !! source = Some (source_status w source (map fst es)).
Proof.
  intros Hes Hs.
  destruct (get_csv_file_status_returns w es Hes) as [data [Hdata [Hd He]]].
  exists data. split; [exact Hdata|].
  destruct Hs as [<-|[<-|[]]]; assumption.
Qed.

(** C2, where the code departs from it: for the suffix "tags_cooccurrence"
    and any index that is not negative, the handler looks the list up under
    the key "extra_tags_cooccurrence", which no status dict has, and the
    [KeyError] leaves the handler ([except ValueError] does not catch it). *)
Theorem get_extra_tags_file_cooccurrence_raises
    (w : world) (es : list (string * node)) (source index : string) (i : Z) :
  data_dir w = Some es ->
  In source [DANBOORU_PREFIX; E621_PREFIX] ->
  parse_int index = Some i ->
  0 <= i ->
  get_extra_tags_file w source COOCCURRENCE_SUFFIX index
  = Raise (KeyError "extra_tags_cooccurrence").
Proof.
  intros Hes Hs Hi Hpos.
  destruct (scanned_source w es source Hes Hs) as [data [Hdata Hsrc]].
  unfold get_extra_tags_file. rewrite Hdata. cbn [bind].
  apply in_list_spec in Hs. rewrite Hs.
  change (in_list COOCCURRENCE_SUFFIX [TAGS_SUFFIX; COOCCURRENCE_SUFFIX]) with true.
  cbn [negb orb]. unfold py_int. rewrite Hi. cbn [bind].
  replace (i <? 0) with false by (symmetry; apply Z.ltb_ge; exact Hpos).
  unfold getitem at 1. rewrite Hsrc. cbn [bind].
  unfold getitem at 1.
  rewrite (proj1 (source_status_extra_cooccurrence w source (map fst es))).
  reflexivity.
Qed.

End ExtraFile.

Lemma get_extra_tags_file_cooccurrence_raises_witness :
  get_extra_tags_file Sample.sample "danbooru" "tags_cooccurrence" "0"
  = Raise (KeyError "extra_tags_cooccurrence")
  /\ snd (extra_files "danbooru" (map fst Sample.data_files))
     = ["danbooru_tags_cooccurrence_backup.csv"].
Proof.
  split; [|reflexivity].
  apply (get_extra_tags_file_cooccurrence_raises Sample.sample Sample.data_files
           "danbooru" "0" 0).
  - reflexivity.
  - left. reflexivity.
  - reflexivity.
  - lia.
Defined.

Section ExtraFileTags.
Context `{PyRuntime}.

(** For the suffix "tags" the endpoint does what the specification says: a
    malformed index is answered 400, an index out of the range of the
    freshly scanned list 404, and an index in range with the file at that
    position of the list (404 when the file no longer exists). *)
Theorem get_extra_tags_file_tags
    (w : world) (es : list (string * node)) (source index : string) :
  data_dir w = Some es ->
  In source [DANBOORU_PREFIX; E621_PREFIX] ->
  get_extra_tags_file w source TAGS_SUFFIX index =
  match parse_int index with
  | None => Return (json_response (error_body "Invalid index format") 400)
  | Some i =>
      if (i <? 0) || (i >=? Z.of_nat (length (fst (extra_files source (map fst es)))))
      then Return (json_response (error_body "Invalid index") 404)
      else
        let f := nth (Z.to_nat i) (fst (extra_files source (map fst es))) "" in
        if data_exists w f then Return (FileResponse f)
        else Return (json_response (error_body "Extra tags file not found") 404)
  end.
Proof.
  intros Hes Hs.
  destruct (scanned_source w es source Hes Hs) as [data [Hdata Hsrc]].
  unfold get_extra_tags_file. rewrite Hdata. cbn [bind].
  apply in_list_spec in Hs. rewrite Hs.
  change (in_list TAGS_SUFFIX [TAGS_SUFFIX; COOCCURRENCE_SUFFIX]) with true.
  cbn [negb orb]. unfold py_int.
  destruct (parse_int index) as [i|]; [|reflexivity].
  cbn [bind]. unfold getitem. rewrite Hsrc. cbn [bind].
  rewrite source_status_extra_tags. cbn [bind len].
  set (files := fst (extra_files source (map fst es))).
  destruct (i <? 0) eqn:Hneg; cbn [orb bind try_except]; [reflexivity|].
  destruct (i >=? Z.of_nat (length files)) eqn:Hhi; cbn [try_except]; [reflexivity|].
  cbn [index_field].
  assert (Hlt : (Z.to_nat i < length files)%nat) by lia.
  destruct (nth_error files (Z.to_nat i)) as [f|] eqn:Hnth.
  - rewrite (nth_error_nth _ _ "" Hnth). cbn [bind].
    destruct (data_exists w f); reflexivity.
  - apply nth_error_None in Hnth. lia.
Qed.

(** A source that has no extra files ("lora" among them) or a suffix that is
    none of the two is answered 400, whatever the index. *)
Theorem get_extra_tags_file_invalid
    (w : world) (es : list (string * node)) (source suffix index : string) :
  data_dir w = Some es ->
  ~ (In source [DANBOORU_PREFIX; E621_PREFIX]
     /\ In suffix [TAGS_SUFFIX; COOCCURRENCE_SUFFIX]) ->
  get_extra_tags_file w source suffix index
  = Return (json_response (error_body "Invalid tag source or suffix") 400).
Proof.
  intros Hes Hbad.
  destruct (get_csv_file_status_returns w es Hes) as [data [Hdata _]].
  unfold get_extra_tags_file. rewrite Hdata. cbn [bind].
  destruct (in_list source _) eqn:Hs; [|reflexivity].
  destruct (in_list suffix _) eqn:Hx; [|reflexivity].
  apply in_list_spec in Hs, Hx. tauto.
Qed.

End ExtraFileTags.

Lemma get_extra_tags_file_tags_witness :
  get_extra_tags_file Sample.sample "danbooru" "tags" "0"
  = Return (FileResponse "danbooru_tags_extra1.csv").
Proof.
  etransitivity.
  - apply (get_extra_tags_file_tags Sample.sample Sample.data_files "danbooru" "0").
    + reflexivity.
    + left. reflexivity.
  - reflexivity.
Defined.

Lemma get_extra_tags_file_invalid_witness :
  get_extra_tags_file Sample.sample "lora" "tags" "0"
  = Return (json_response (error_body "Invalid tag source or suffix") 400).
Proof.
  apply (get_extra_tags_file_invalid Sample.sample Sample.data_files "lora" "tags" "0").
  - reflexivity.
  - intros [Hs _]. cbn in Hs. destruct Hs as [Hs|[Hs|[]]]; discriminate.
Defined.

(** ** Loops that may raise *)

Lemma for_each_nil {A B : Type} (body : B -> A -> result B) (init : B) :
  for_each [] body init = Return init.
Proof. reflexivity. Qed.

Lemma fold_raise {A B : Type} (body : B -> A -> result B) (l : list A) (e : exn) :
  fold_left (fun acc a => do b <- acc ; body b a) l (Raise e) = Raise e.
Proof. induction l as [|a l IH]; [reflexivity | exact IH]. Qed.

Lemma for_each_cons {A B : Type} (body : B -> A -> result B) (a : A) (l : list A)
    (init : B) :
  for_each (a :: l) body init = do b <- body init a ; for_each l body b.
Proof.
  unfold for_each. cbn [fold_left bind].
  destruct (body init a) as [b|e]; [reflexivity | apply fold_raise].
Qed.

(** Once the body raises on an element whatever the accumulator, the loop
    raises: at that element, or earlier. *)
Lemma for_each_raises {A B : Type} (body : B -> A -> result B) (l : list A) (a : A) :
  In a l ->
  (forall b, exists e, body b a = Raise e) ->
  forall init, exists e, for_each l body init = Raise e.
Proof.
  intros Hin Hbad. induction l as [|x l IH]; intros init; [destruct Hin|].
  rewrite for_each_cons. destruct Hin as [->|Hin].
  - destruct (Hbad init) as [e He]. exists e. rewrite He. reflexivity.
  - destruct (body init x) as [b|e]; cbn [bind].
    + apply IH. exact Hin.
    + exists e. reflexivity.
Qed.



(** ** The LoRA synthesizer: one sidecar *)

Section Sidecar.
Context `{PyRuntime}.

Lemma py_float_zero : exists f, py_float (JInt 0) = Return f /\ float_is_zero f = true.
Proof.
  destruct float_of_zero as [f [Hf Hz]]. exists f. cbn [py_float]. rewrite Hf. auto.
Qed.

Lemma add_sidecar_dict (root : string) (entries : list (string * tree))
    (rows : list row) (file : string) (items : list (string * json)) :
  load_json entries file = Return (JDict items) ->
  add_sidecar root entries rows file =
  match entry "activation text" items with
  | None => Return rows
  | Some text =>
      do weight <- py_float (match entry "preferred weight" items with
                             | Some v => v
                             | None => JInt 0
                             end) ;
      Return (rows ++ [(splitext_root file,
                        annotate (splitext_root file) weight text,
                        preview_of root entries (splitext_root file))])
  end.
Proof.
  intros Hload. unfold add_sidecar. rewrite Hload. cbn [bind py_in].
  unfold has_entry.
  destruct (entry "activation text" items) as [text|] eqn:Ht; cbn [negb]; [|reflexivity].
  cbn [subscript]. rewrite Ht. cbn [bind py_get].
  destruct (entry "preferred weight" items) as [v|]; reflexivity.
Qed.

(** C6: a sidecar that is a JSON object without "activation text" adds no
    row.  With the field, the row is (name, text, preview): the text is the
    sidecar's, prefixed with <lora:name:w> when the weight w is not zero
    (w printed as the float it converts to) and unprefixed when the weight
    is zero or absent; the preview is the path of the sibling name.png when
    that exists and the empty string otherwise. *)
Theorem add_sidecar_spec (root : string) (entries : list (string * tree))
    (rows : list row) (file : string) (items : list (string * json)) :
  load_json entries file = Return (JDict items) ->
  (entry "activation text" items = None ->
   add_sidecar root entries rows file = Return rows)
  /\ (forall text v w,
        entry "activation text" items = Some text ->
        entry "preferred weight" items = Some v ->
        py_float v = Return w ->
        float_is_zero w = false ->
        add_sidecar root entries rows file
        = Return (rows ++ [(splitext_root file,
                            JStr ("<lora:" +:+ splitext_root file +:+ ":" +:+ float_repr w
                                    +:+ ">" +:+ py_str text),
                            preview_of root entries (splitext_root file))]))
  /\ (forall text,
        entry "activation text" items = Some text ->
        (entry "preferred weight" items = None
         \/ exists v w, entry "preferred weight" items = Some v
                        /\ py_float v = Return w /\ float_is_zero w = true) ->
        add_sidecar root entries rows file
        = Return (rows ++ [(splitext_root file, text,
                            preview_of root entries (splitext_root file))]))
  /\ preview_of root entries (splitext_root file)
     = (if has_entry (splitext_root file +:+ ".png") entries
        then path_join root (splitext_root file +:+ ".png") else "").
Proof.
  intros Hload. rewrite (add_sidecar_dict root entries rows file items Hload).
  split; [|split; [|split]].
  - intros ->. reflexivity.
  - intros text v w -> -> Hw Hz. rewrite Hw. cbn [bind].
    unfold annotate. rewrite Hz. reflexivity.
  - intros text -> [Hnone | [v [w [Hv [Hw Hz]]]]].
    + rewrite Hnone.
      destruct py_float_zero as [f [Hf Hz]]. rewrite Hf. cbn [bind].
      unfold annotate. rewrite Hz. reflexivity.
    + rewrite Hv. rewrite Hw. cbn [bind].
      unfold annotate. rewrite Hz. reflexivity.
  - unfold preview_of. destruct (has_entry _ entries); reflexivity.
Qed.

End Sidecar.

(** The example of the specification: [foo.json] with weight 0.8 beside
    [foo.png]. *)
Lemma add_sidecar_spec_witness :
  add_sidecar "/models/loras"
    [("foo.json", Leaf (Parsed Sample.foo_json)); ("foo.png", Leaf Misencoded)] [] "foo.json"
  = Return [("foo", JStr "<lora:foo:0.8>foo tag", "/models/loras/foo.png")].
Proof.
  destruct (add_sidecar_spec "/models/loras"
              [("foo.json", Leaf (Parsed Sample.foo_json)); ("foo.png", Leaf Misencoded)]
              [] "foo.json"
              [("activation text", JStr "foo tag");
               ("preferred weight", JFloat (Reference.Finite false 8 (-1)))]
              eq_refl) as [_ [Hweight _]].
  apply (Hweight (JStr "foo tag") (JFloat (Reference.Finite false 8 (-1)))
           (Reference.Finite false 8 (-1))); reflexivity.
Defined.

(** ** The LoRA synthesizer: the whole run *)

Lemma entry_put (name : string) (n : node) (es : list (string * node)) :
  entry name (put name n es) = Some n.
Proof.
  induction es as [|[m x] es IH]; cbn [put entry].
  - rewrite String.eqb_refl. reflexivity.
  - destruct (String.eqb name m) eqn:Hm; cbn [entry]; rewrite Hm; [reflexivity | exact IH].
Qed.

Lemma entry_put_other (name other : string) (n : node) (es : list (string * node)) :
  other <> name -> entry other (put name n es) = entry other es.
Proof.
  intros Hne. induction es as [|[m x] es IH]; cbn [put entry].
  - apply String.eqb_neq in Hne. rewrite Hne. reflexivity.
  - destruct (String.eqb name m) eqn:Hm; cbn [entry].
    + apply String.eqb_eq in Hm. subst m.
      apply String.eqb_neq in Hne. rewrite Hne. reflexivity.
    + rewrite IH. reflexivity.
Qed.

Section Synthesis.
Context `{PyRuntime}.



Lemma write_data_file_returns (w : world) (es : list (string * node)) (name text : string) :
  data_dir w = Some es ->
  entry name es <> Some Folder ->
  write_data_file w name text = Return (set_data_dir w (put name (File text) es)).
Proof.
  intros Hes Hnf. unfold write_data_file. rewrite Hes.
  destruct (entry name es) as [[b| |]|]; congruence.
Qed.

Lemma config_not_empty (l : list string) : l <> [] -> Nat.eqb (length l) 0 = false.
Proof. destruct l; [congruence | reflexivity]. Qed.

Lemma written_lines_all (rows : list row) :
  all_encodable rows = true -> written_lines rows = csv_text rows.
Proof.
  unfold all_encodable.
  induction rows as [|r rows IH]; cbn [forallb written_lines csv_text]; [reflexivity|].
  intros Hall. apply andb_true_iff in Hall. destruct Hall as [Hr Hrest].
  rewrite Hr, (IH Hrest). reflexivity.
Qed.

(** Once the target opens, the file holds the lines written, whether or not
    a row stopped the writer. *)
Lemma write_csv_opens (w : world) (es : list (string * node)) (filename : string)
    (rows : list row) :
  data_dir w = Some es ->
  entry filename es <> Some Folder ->
  write_csv w filename rows
  = (if all_encodable rows then Return tt
     else Raise (UnicodeEncodeError "surrogates not allowed"),
     set_data_dir w (put filename (File (written_lines rows)) es)).
Proof.
  intros Hes Hnf. unfold write_csv.
  rewrite (write_data_file_returns w es filename _ Hes Hnf).
  destruct (all_encodable rows); reflexivity.
Qed.


Lemma bad_sidecar_raises (root : string) (entries : list (string * tree))
    (rows : list row) (file : string) :
  bad_sidecar entries file ->
  exists e, add_sidecar root entries rows file = Raise e.
Proof.
  intros [Hbad | [Hbad | [items [text [v [e [Hfile [Ht [Hv He]]]]]]]]].
  - eexists. unfold add_sidecar, load_json. rewrite Hbad. reflexivity.
  - eexists. unfold add_sidecar, load_json. rewrite Hbad. reflexivity.
  - exists e. rewrite (add_sidecar_dict root entries rows file items).
    + rewrite Ht, Hv, He. reflexivity.
    + unfold load_json. rewrite Hfile. reflexivity.
Qed.

Lemma collect_raises (w : world) (lora_path : string) (t : tree)
    (root : string) (entries : list (string * tree)) (file : string) :
  In lora_path (lora_search_path w) ->
  entry lora_path (lora_roots w) = Some t ->
  In (root, entries) (walk lora_path t) ->
  In file (json_files entries) ->
  bad_sidecar entries file ->
  exists e, for_each (lora_search_path w) (add_root w) [] = Raise e.
Proof.
  intros Hin Ht Hd Hfile Hbad.
  apply (for_each_raises (add_root w) (lora_search_path w) lora_path Hin).
  intros rows. unfold add_root. rewrite Ht.
  apply (for_each_raises _ (walk lora_path t) (root, entries) Hd).
  intros rows1. cbn [fst snd].
  apply (for_each_raises _ (json_files entries) file Hfile).
  intros rows2. apply bad_sidecar_raises. exact Hbad.
Qed.

Lemma copy_status_scanned (w : world) (data : gmap string (gmap string field))
    (prefix : string) (listing : list string) :
  data !! prefix = Some (source_status w prefix listing) ->
  copy_status data prefix = Return (source_status w prefix listing).
Proof.
  intros Hd. unfold copy_status, getitem. rewrite Hd. reflexivity.
Qed.

(** The handler up to the call of the synthesizer. *)
Lemma get_csv_list_unfold (w : world) (es : list (string * node)) :
  data_dir w = Some es ->
  get_csv_list w =
  match generate_lora_csv w (base_file LORA_PREFIX TAGS_SUFFIX) with
  | (Raise e, w') => (Raise e, w')
  | (Return generated, w') =>
      (Return (json_response
                 (StatusDoc
                    (if generated
                     then <[LORA_PREFIX := {[ "base_tags" := FBool true ]}]>
                            {[ DANBOORU_PREFIX := source_status w DANBOORU_PREFIX (map fst es);
                               E621_PREFIX := source_status w E621_PREFIX (map fst es) ]}
                     else {[ DANBOORU_PREFIX := source_status w DANBOORU_PREFIX (map fst es);
                             E621_PREFIX := source_status w E621_PREFIX (map fst es) ]}))
                 200), w')
  end.
Proof.
  intros Hes.
  destruct (get_csv_file_status_returns w es Hes) as [data [Hdata [Hd He]]].
  unfold get_csv_list. rewrite Hdata. cbn [bind].
  rewrite (copy_status_scanned w data _ _ Hd), (copy_status_scanned w data _ _ He).
  cbn [bind]. reflexivity.
Qed.

(** C10: a sidecar met by the walk that cannot be decoded, or that carries
    an activation text and a weight [float] rejects, makes the synthesizer
    raise and leave the world untouched; the status-listing handler, which
    catches nothing, ends in an exception as well, the synthesizer's own
    whenever the scan of the data directory succeeded. *)
Theorem bad_sidecar_fails_listing (w : world) (lora_path : string) (t : tree)
    (root : string) (entries : list (string * tree)) (file : string) :
  In lora_path (lora_search_path w) ->
  entry lora_path (lora_roots w) = Some t ->
  In (root, entries) (walk lora_path t) ->
  In file (json_files entries) ->
  bad_sidecar entries file ->
  exists e e',
    generate_lora_csv w (base_file LORA_PREFIX TAGS_SUFFIX) = (Raise e, w)
    /\ get_csv_list w = (Raise e', w)
    /\ (data_dir w <> None -> e' = e).
Proof.
  intros Hin Ht Hd Hfile Hbad.
  destruct (collect_raises w lora_path t root entries file Hin Ht Hd Hfile Hbad)
    as [e He].
  assert (Hgen : generate_lora_csv w (base_file LORA_PREFIX TAGS_SUFFIX) = (Raise e, w)).
  { unfold generate_lora_csv. rewrite config_not_empty, He; [reflexivity|].
    intros Hnil. rewrite Hnil in Hin. destruct Hin. }
  exists e. destruct (data_dir w) as [es|] eqn:Hes.
  - exists e. split; [exact Hgen|]. split; [|reflexivity].
    rewrite (get_csv_list_unfold w es Hes), Hgen. reflexivity.
  - eexists. split; [exact Hgen|]. split; [|congruence].
    unfold get_csv_list. rewrite (get_csv_file_status_raises w Hes). reflexivity.
Qed.

End Synthesis.





Lemma bad_sidecar_fails_listing_witness :
  exists e e',
    generate_lora_csv (Sample.with_lora Sample.heavy_tree) (base_file LORA_PREFIX TAGS_SUFFIX)
    = (Raise e, Sample.with_lora Sample.heavy_tree)
    /\ get_csv_list (Sample.with_lora Sample.heavy_tree)
       = (Raise e', Sample.with_lora Sample.heavy_tree)
    /\ (data_dir (Sample.with_lora Sample.heavy_tree) <> None -> e' = e).
Proof.
  apply (bad_sidecar_fails_listing (Sample.with_lora Sample.heavy_tree)
           "/models/loras" Sample.heavy_tree "/models/loras/styles"
           [("bar.json",
             Leaf (Parsed (JDict [("activation text", JStr "bar");
                                  ("preferred weight", JStr "heavy")])))]
           "bar.json").
  - left. reflexivity.
  - reflexivity.
  - right. left. reflexivity.
  - left. reflexivity.
  - right. right.
    exists [("activation text", JStr "bar"); ("preferred weight", JStr "heavy")],
      (JStr "bar"), (JStr "heavy"),
      (ValueError "could not convert string to float: heavy").
    repeat split; reflexivity.
Defined.

(** What the runs above come to. *)
Example heavy_run :
  get_csv_list (Sample.with_lora Sample.heavy_tree)
  = (Raise (ValueError "could not convert string to float: heavy"),
     Sample.with_lora Sample.heavy_tree).
Proof. reflexivity. Qed.

Example sample_run :
  snd (generate_lora_csv Sample.sample "lora_tags.csv")
  = set_data_dir Sample.sample
      (Sample.data_files
         ++ [("lora_tags.csv",
              File ("foo,<lora:foo:0.8>foo tag,/models/loras/foo.png"
                      +:+ String "013" (String "010" "")))]).
Proof. reflexivity. Qed.

(** A row that cannot be encoded stops the writer after the target was
    emptied: the base file the run was pointed at keeps the one line written
    before that row, none of its old content. *)
Example surrogate_run :
  generate_lora_csv (Sample.with_lora Sample.surrogate_tree) "lora_tags.csv"
  = (Raise (UnicodeEncodeError "surrogates not allowed"),
     set_data_dir (Sample.with_lora Sample.surrogate_tree)
       (Sample.data_files
          ++ [("lora_tags.csv", File ("a,fine," +:+ String "013" (String "010" "")))])).
Proof. reflexivity. Qed.

Example silent_run :
  generate_lora_csv (Sample.with_lora Sample.silent_tree) "lora_tags.csv"
  = (Return true,
     set_data_dir (Sample.with_lora Sample.silent_tree)
       (Sample.data_files ++ [("lora_tags.csv", File "")])).
Proof. reflexivity. Qed.

(** ** The status-listing endpoint *)

Section Listing.
Context `{PyRuntime}.

Lemma source_status_fields (w : world) (prefix : string) (listing : list string) :
  source_status w prefix listing !! "base_tags"
  = Some (FBool (data_exists w (base_file prefix TAGS_SUFFIX)))
  /\ source_status w prefix listing !! "extra_tags"
     = Some (FList (fst (extra_files prefix listing)))
  /\ source_status w prefix listing !! "base_cooccurrence"
     = Some (FBool (data_exists w (base_file prefix COOCCURRENCE_SUFFIX)))
  /\ source_status w prefix listing !! "extra_cooccurrence"
     = Some (FList (snd (extra_files prefix listing))).
Proof. repeat split; reflexivity. Qed.

(** C7: when the scan succeeds and the synthesizer returns a flag, the
    handler answers 200 with a document that has the key "lora", mapped to
    {base_tags: true}, exactly when the flag is true, and no such key when
    it is false; its "danbooru" and "e621" entries are the scanner's, with
    their four fields. *)
Theorem get_csv_list_spec (w w' : world) (es : list (string * node)) (generated : bool) :
  data_dir w = Some es ->
  generate_lora_csv w (base_file LORA_PREFIX TAGS_SUFFIX) = (Return generated, w') ->
  exists doc,
    get_csv_list w = (Return (json_response (StatusDoc doc) 200), w')
    /\ doc !! LORA_PREFIX
       = (if generated then Some {[ "base_tags" := FBool true ]} else None)
    /\ (is_Some (doc !! LORA_PREFIX) <-> generated = true)
    /\ forall prefix,
         In prefix [DANBOORU_PREFIX; E621_PREFIX] ->
         exists status,
           doc !! prefix = Some status
           /\ status !! "base_tags"
              = Some (FBool (data_exists w (base_file prefix TAGS_SUFFIX)))
           /\ status !! "extra_tags"
              = Some (FList (fst (extra_files prefix (map fst es))))
           /\ status !! "base_cooccurrence"
              = Some (FBool (data_exists w (base_file prefix COOCCURRENCE_SUFFIX)))
           /\ status !! "extra_cooccurrence"
              = Some (FList (snd (extra_files prefix (map fst es)))).
Proof.
  intros Hes Hgen. rewrite (get_csv_list_unfold w es Hes), Hgen.
  eexists. split; [reflexivity|].
  split; [destruct generated; reflexivity|].
  split.
  - destruct generated.
    + split; [reflexivity | intros _; eexists; reflexivity].
    + split; [intros [x Hx]; discriminate Hx | discriminate].
  - intros prefix Hp. exists (source_status w prefix (map fst es)).
    split; [|apply source_status_fields].
    destruct Hp as [<-|[<-|[]]]; destruct generated; reflexivity.
Qed.

End Listing.

Lemma get_csv_list_spec_witness :
  exists doc,
    get_csv_list Sample.sample
    = (Return (json_response (StatusDoc doc) 200),
       snd (generate_lora_csv Sample.sample "lora_tags.csv"))
    /\ doc !! "lora" = Some {[ "base_tags" := FBool true ]}
    /\ (is_Some (doc !! "lora") <-> true = true)
    /\ forall prefix,
         In prefix ["danbooru"; "e621"] ->
         exists status,
           doc !! prefix = Some status
           /\ status !! "base_tags"
              = Some (FBool (data_exists Sample.sample (base_file prefix "tags")))
           /\ status !! "extra_tags"
              = Some (FList (fst (extra_files prefix (map fst Sample.data_files))))
           /\ status !! "base_cooccurrence"
              = Some (FBool (data_exists Sample.sample (base_file prefix "tags_cooccurrence")))
           /\ status !! "extra_cooccurrence"
              = Some (FList (snd (extra_files prefix (map fst Sample.data_files)))).
Proof.
  apply (get_csv_list_spec Sample.sample
           (snd (generate_lora_csv Sample.sample "lora_tags.csv"))
           Sample.data_files true).
  - reflexivity.
  - reflexivity.
Defined.

(** The example of the specification: the status of "danbooru" and "e621"
    for the sample directory. *)
Example sample_status :
  forall data, get_csv_file_status Sample.sample = Return data ->
  data !! "danbooru"
  = Some {[ "base_tags" := FBool true;
            "extra_tags" := FList ["danbooru_tags_extra1.csv"];
            "base_cooccurrence" := FBool false;
            "extra_cooccurrence" := FList ["danbooru_tags_cooccurrence_backup.csv"] ]}
  /\ data !! "e621"
     = Some {[ "base_tags" := FBool false;
               "extra_tags" := FList [];
               "base_cooccurrence" := FBool true;
               "extra_cooccurrence" := FList [] ]}.
Proof.
  intros data Hdata.
  destruct (get_csv_file_status_returns Sample.sample Sample.data_files eq_refl)
    as [data' [Hdata' [Hd He]]].
  rewrite Hdata in Hdata'. injection Hdata' as <-.
  split; [exact (eq_trans Hd eq_refl) | exact (eq_trans He eq_refl)].
Qed.

(** ** The metadata reader and the last-check-time endpoint *)

Section LastCheck.
Context `{PyRuntime}.

(** What leaves a [try] whose handler returns is a value, or an exception
    of a class the [except] clause does not name. *)
Lemma try_except_uncaught {A : Type} (m : result A) (classes : exn -> bool)
    (handler : exn -> result A) (e : exn) :
  (forall x, exists a, handler x = Return a) ->
  try_except m classes handler = Raise e ->
  classes e = false /\ m = Raise e.
Proof.
  intros Hh. unfold try_except. destruct m as [a|x]; [discriminate|].
  destruct (classes x) eqn:Hc.
  - destruct (Hh x) as [a Ha]. rewrite Ha. discriminate.
  - intros [= <-]. split; [exact Hc | reflexivity].
Qed.

Lemma reader_uncaught (w : world) (e : exn) :
  get_last_check_time_from_metadata w = Raise e ->
  is_IOError_or_JSONDecodeError e = false.
Proof.
  intros Hr. unfold get_last_check_time_from_metadata in Hr.
  apply try_except_uncaught in Hr; [tauto|].
  intros x. exists JNull. reflexivity.
Qed.

(** The failure paths the reader handles: no file, a file that cannot be
    opened, a file that is not JSON. *)
Lemma reader_degrades (w : world) :
  csv_meta w = Absent \/ csv_meta w = Unreadable \/ csv_meta w = Present Malformed ->
  get_last_check_time_from_metadata w = Return JNull.
Proof.
  unfold get_last_check_time_from_metadata, meta_exists, load_metadata.
  intros [-> | [-> | ->]]; reflexivity.
Qed.

(** The documented case: a dict whose "hf_datasets" is a list of dicts. *)
Lemma reader_first_dataset (w : world) (items first : list (string * json))
    (others : list json) :
  csv_meta w = Present (Parsed (JDict items)) ->
  entry "hf_datasets" items = Some (JList (JDict first :: others)) ->
  get_last_check_time_from_metadata w =
  Return (match entry "last_remote_check_timestamp" first with
          | Some t => t
          | None => JNull
          end).
Proof.
  intros Hm Hd.
  unfold get_last_check_time_from_metadata, meta_exists, load_metadata.
  rewrite Hm. cbn [negb bind py_get]. rewrite Hd. cbn.
  destruct (entry "last_remote_check_timestamp" first); reflexivity.
Qed.

(** C8, where the code departs from it: a metadata file whose JSON is a
    list, or whose first dataset record is no object, makes the reader raise
    [AttributeError], which its [except] clause does not name; a file that
    is not UTF-8 makes it raise [UnicodeDecodeError]. *)
Theorem reader_raises_on_list (d : option (list (string * node))) (p : list string)
    (r : list (string * tree)) (items : list json) :
  get_last_check_time_from_metadata
    {| data_dir := d; lora_search_path := p; lora_roots := r;
       csv_meta := Present (Parsed (JList items)) |}
  = Raise (AttributeError "object has no attribute 'get'")
  /\ get_last_check_time_from_metadata
       {| data_dir := d; lora_search_path := p; lora_roots := r;
          csv_meta := Present (Parsed (JDict [("hf_datasets", JList [JInt 1])])) |}
     = Raise (AttributeError "object has no attribute 'get'")
  /\ get_last_check_time_from_metadata
       {| data_dir := d; lora_search_path := p; lora_roots := r;
          csv_meta := Present Misencoded |}
     = Raise (UnicodeDecodeError "invalid start byte").
Proof. repeat split; reflexivity. Qed.

(** C9, where the code departs from it: a metadata file that cannot be
    opened or is not JSON gets the answer of a file without timestamp, 200
    with the message "No datasets found in metadata": the reader has already
    turned the failure into [None]. *)
Theorem unreadable_metadata_answers_200 (d : option (list (string * node)))
    (p : list string) (r : list (string * tree)) :
  get_last_check_time
    {| data_dir := d; lora_search_path := p; lora_roots := r;
       csv_meta := Present Malformed |}
  = Return (json_response
              (Obj [("last_check_time", JNull);
                    ("message", JStr "No datasets found in metadata")]) 200)
  /\ get_last_check_time
       {| data_dir := d; lora_search_path := p; lora_roots := r;
          csv_meta := Unreadable |}
     = Return (json_response
                 (Obj [("last_check_time", JNull);
                       ("message", JStr "No datasets found in metadata")]) 200)
  /\ get_last_check_time
       {| data_dir := d; lora_search_path := p; lora_roots := r;
          csv_meta := Present (Parsed (JDict [])) |}
     = Return (json_response
                 (Obj [("last_check_time", JNull);
                       ("message", JStr "No datasets found in metadata")]) 200).
Proof. repeat split; reflexivity. Qed.

(** The 500 branch of the endpoint is never taken: every answer is sent
    with 200, and what the handler lets through is no [IOError] and no
    [JSONDecodeError]. *)
Lemma get_last_check_time_never_500 (w : world) :
  match get_last_check_time w with
  | Return (json_response _ status) => status = 200
  | Return (FileResponse _) => False
  | Raise e => is_IOError_or_JSONDecodeError e = false
  end.
Proof.
  unfold get_last_check_time.
  destruct (meta_exists w); cbn [negb]; [|reflexivity].
  destruct (get_last_check_time_from_metadata w) as [v|e] eqn:Hr; cbn [bind].
  - destruct (is_None v); reflexivity.
  - apply reader_uncaught in Hr. cbn [try_except]. rewrite Hr. exact Hr.
Qed.

(** The two outcomes the endpoint does tell apart. *)
Lemma get_last_check_time_absent (w : world) :
  csv_meta w = Absent ->
  get_last_check_time w
  = Return (json_response
              (Obj [("last_check_time", JNull);
                    ("message", JStr "csv_meta.json file not found")]) 200).
Proof.
  intros Hm. unfold get_last_check_time, meta_exists. rewrite Hm. reflexivity.
Qed.

End LastCheck.

Lemma reader_degrades_witness :
  get_last_check_time_from_metadata (Sample.with_meta (Present Malformed)) = Return JNull.
Proof.
  apply (reader_degrades (Sample.with_meta (Present Malformed))).
  right. right. reflexivity.
Defined.

Lemma reader_first_dataset_witness :
  get_last_check_time_from_metadata Sample.sample = Return (JStr "2025-01-01T00:00:00").
Proof.
  apply (reader_first_dataset Sample.sample
           [("hf_datasets",
             JList [JDict [("last_remote_check_timestamp", JStr "2025-01-01T00:00:00")]])]
           [("last_remote_check_timestamp", JStr "2025-01-01T00:00:00")] []);
    reflexivity.
Defined.

Example last_check_time_sample :
  get_last_check_time Sample.sample
  = Return (json_response (Obj [("last_check_time", JStr "2025-01-01T00:00:00")]) 200).
Proof. reflexivity. Qed.

Example reader_on_empty_list :
  get_last_check_time_from_metadata (Sample.with_meta (Present (Parsed (JList []))))
  = Raise (AttributeError "object has no attribute 'get'").
Proof. reflexivity. Qed.

(** * Further properties *)

(** ** The scanner's lists, in listing order *)

Lemma fold_classify_filter (prefix : string) (l : list string)
    (acc : list string * list string) :
  fold_left
    (classify (base_file prefix TAGS_SUFFIX) (base_file prefix COOCCURRENCE_SUFFIX))
    (all_csv_files prefix l) acc
  = (fst acc
       ++ List.filter
            (fun f =>
               startswith f prefix && endswith f ".csv"
               && negb (in_list f [base_file prefix TAGS_SUFFIX;
                                   base_file prefix COOCCURRENCE_SUFFIX])
               && negb (contains (lower f) COOCCURRENCE_SUFFIX)
               && contains (lower f) TAGS_SUFFIX) l,
     snd acc
       ++ List.filter
            (fun f =>
               startswith f prefix && endswith f ".csv"
               && negb (in_list f [base_file prefix TAGS_SUFFIX;
                                   base_file prefix COOCCURRENCE_SUFFIX])
               && contains (lower f) COOCCURRENCE_SUFFIX) l).
Proof.
  revert acc. unfold all_csv_files.
  induction l as [|a l IH]; intros [ts cs]; cbn [List.filter fold_left fst snd].
  - rewrite !app_nil_r. reflexivity.
  - destruct (startswith a prefix && endswith a ".csv") eqn:Hq; cbn [andb fold_left].
    + rewrite IH. unfold classify.
      destruct (in_list a _) eqn:Hb; cbn [negb andb fst snd]; [reflexivity|].
      destruct (contains (lower a) COOCCURRENCE_SUFFIX) eqn:Hc; cbn [negb andb fst snd].
      * rewrite <- app_assoc. reflexivity.
      * destruct (contains (lower a) TAGS_SUFFIX); cbn [fst snd];
          [rewrite <- app_assoc|]; reflexivity.
    + apply IH.
Qed.

(** The list under "extra_tags" is the directory listing, in its order and
    with its repetitions, restricted to the names that start with the
    prefix, end in ".csv", are no base file, contain "tags" and do not
    contain "tags_cooccurrence" (lowercased); the list under
    "extra_cooccurrence" is the same with "tags_cooccurrence" contained. *)
Theorem extra_files_filter (prefix : string) (listing : list string) :
  extra_files prefix listing
  = (List.filter
       (fun f =>
          startswith f prefix && endswith f ".csv"
          && negb (in_list f [base_file prefix TAGS_SUFFIX;
                              base_file prefix COOCCURRENCE_SUFFIX])
          && negb (contains (lower f) COOCCURRENCE_SUFFIX)
          && contains (lower f) TAGS_SUFFIX) listing,
     List.filter
       (fun f =>
          startswith f prefix && endswith f ".csv"
          && negb (in_list f [base_file prefix TAGS_SUFFIX;
                              base_file prefix COOCCURRENCE_SUFFIX])
          && contains (lower f) COOCCURRENCE_SUFFIX) listing).
Proof. unfold extra_files. rewrite fold_classify_filter. reflexivity. Qed.

(** ** The file endpoints at their edges *)

Section FileEndpoints.
Context `{PyRuntime}.

Lemma extra_endpoint_tags (w : world) (es : list (string * node)) (source index : string) :
  data_dir w = Some es ->
  In source [DANBOORU_PREFIX; E621_PREFIX] ->
  get_extra_tags_file w source TAGS_SUFFIX index =
  match parse_int index with
  | None => Return (json_response (error_body "Invalid index format") 400)
  | Some i =>
      if (i <? 0) || (i >=? Z.of_nat (length (fst (extra_files source (map fst es)))))
      then Return (json_response (error_body "Invalid index") 404)
      else
        match nth_error (fst (extra_files source (map fst es))) (Z.to_nat i) with
        | Some f =>
            if data_exists w f then Return (FileResponse f)
            else Return (json_response (error_body "Extra tags file not found") 404)
        | None => Raise (IndexError "list index out of range")
        end
  end.
Proof.
  intros Hes Hs.
  destruct (scanned_source w es source Hes Hs) as [data [Hdata Hsrc]].
  unfold get_extra_tags_file. rewrite Hdata. cbn [bind].
  apply in_list_spec in Hs. rewrite Hs.
  change (in_list TAGS_SUFFIX [TAGS_SUFFIX; COOCCURRENCE_SUFFIX]) with true.
  cbn [negb orb]. unfold py_int.
  destruct (parse_int index) as [i|]; [|reflexivity].
  cbn [bind]. unfold getitem. rewrite Hsrc. cbn [bind].
  rewrite source_status_extra_tags. cbn [bind len].
  destruct (i <? 0); cbn [orb bind try_except]; [reflexivity|].
  destruct (i >=? _); cbn [try_except]; [reflexivity|].
  cbn [index_field].
  destruct (nth_error _ (Z.to_nat i)) as [f|]; cbn [bind]; [|reflexivity].
  destruct (data_exists w f); reflexivity.
Qed.

Lemma extra_endpoint_cooccurrence (w : world) (es : list (string * node))
    (source index : string) :
  data_dir w = Some es ->
  In source [DANBOORU_PREFIX; E621_PREFIX] ->
  get_extra_tags_file w source COOCCURRENCE_SUFFIX index =
  match parse_int index with
  | None => Return (json_response (error_body "Invalid index format") 400)
  | Some i =>
      if i <? 0 then Return (json_response (error_body "Invalid index") 404)
      else Raise (KeyError "extra_tags_cooccurrence")
  end.
Proof.
  intros Hes Hs.
  destruct (scanned_source w es source Hes Hs) as [data [Hdata Hsrc]].
  unfold get_extra_tags_file. rewrite Hdata. cbn [bind].
  apply in_list_spec in Hs. rewrite Hs.
  change (in_list COOCCURRENCE_SUFFIX [TAGS_SUFFIX; COOCCURRENCE_SUFFIX]) with true.
  cbn [negb orb]. unfold py_int.
  destruct (parse_int index) as [i|]; [|reflexivity].
  cbn [bind]. destruct (i <? 0); cbn [bind try_except]; [reflexivity|].
  unfold getitem at 1. rewrite Hsrc. cbn [bind].
  unfold getitem at 1.
  rewrite (proj1 (source_status_extra_cooccurrence w source (map fst es))).
  reflexivity.
Qed.

(** A negative index is answered 404 for both suffixes: the test [index < 0]
    comes before the list is looked up. *)
Theorem get_extra_tags_file_negative
    (w : world) (es : list (string * node)) (source suffix index : string) (i : Z) :
  data_dir w = Some es ->
  In source [DANBOORU_PREFIX; E621_PREFIX] ->
  In suffix [TAGS_SUFFIX; COOCCURRENCE_SUFFIX] ->
  parse_int index = Some i ->
  i < 0 ->
  get_extra_tags_file w source suffix index
  = Return (json_response (error_body "Invalid index") 404).
Proof.
  intros Hes Hs Hx Hi Hneg.
  apply Z.ltb_lt in Hneg.
  destruct Hx as [<-|[<-|[]]].
  - rewrite (extra_endpoint_tags w es source index Hes Hs), Hi, Hneg. reflexivity.
  - rewrite (extra_endpoint_cooccurrence w es source index Hes Hs), Hi, Hneg. reflexivity.
Qed.

(** Without data directory the scan fails before anything is validated: the
    extra-file endpoint and the listing endpoint end in [OSError] whatever
    the request, and the listing writes nothing; the base-file endpoint,
    which does not scan, still answers, 400 or 404. *)
Theorem missing_data_directory (w : world) (source suffix index : string) :
  data_dir w = None ->
  get_extra_tags_file w source suffix index = Raise (OSError "No such file or directory")
  /\ get_csv_list w = (Raise (OSError "No such file or directory"), w)
  /\ (get_base_tags_file w source suffix
      = json_response (error_body "Invalid tag source or suffix") 400
      \/ get_base_tags_file w source suffix
         = json_response (error_body "Base tags file not found") 404).
Proof.
  intros Hes. split; [|split].
  - unfold get_extra_tags_file. rewrite (get_csv_file_status_raises w Hes). reflexivity.
  - unfold get_csv_list. rewrite (get_csv_file_status_raises w Hes). reflexivity.
  - unfold get_base_tags_file, data_exists. rewrite Hes.
    destruct (negb _ || negb _); [left | right]; reflexivity.
Qed.

(** The base-file endpoint serves one of six files of the data directory and
    nothing else: the path is built from a validated source and suffix. *)
Theorem get_base_tags_file_serves (w : world) (source suffix f : string) :
  get_base_tags_file w source suffix = FileResponse f ->
  In f ["danbooru_tags.csv"; "danbooru_tags_cooccurrence.csv";
        "e621_tags.csv"; "e621_tags_cooccurrence.csv";
        "lora_tags.csv"; "lora_tags_cooccurrence.csv"]
  /\ f = base_file source suffix
  /\ data_exists w f = true.
Proof.
  unfold get_base_tags_file.
  destruct (in_list source _) eqn:Hs; cbn [negb orb]; [|discriminate].
  destruct (in_list suffix _) eqn:Hx; cbn [negb]; [|discriminate].
  destruct (data_exists w (base_file source suffix)) eqn:He; cbn [negb]; [|discriminate].
  intros [= <-]. split; [|split; [reflexivity | exact He]].
  apply in_list_spec in Hs, Hx.
  destruct Hs as [<-|[<-|[<-|[]]]]; destruct Hx as [<-|[<-|[]]]; cbn; tauto.
Qed.

(** The extra-file endpoint serves only names the scanner lists under
    "extra_tags": entries of the data directory that start with the source
    prefix, end in ".csv" and are no base file.  For the suffix
    "tags_cooccurrence" it serves no file at all. *)
Theorem get_extra_tags_file_serves (w : world) (source suffix index f : string) :
  get_extra_tags_file w source suffix index = Return (FileResponse f) ->
  exists es,
    data_dir w = Some es
    /\ In source [DANBOORU_PREFIX; E621_PREFIX]
    /\ suffix = TAGS_SUFFIX
    /\ In f (fst (extra_files source (map fst es)))
    /\ In f (extra_candidates source (map fst es))
    /\ data_exists w f = true.
Proof.
  intros Hr. destruct (data_dir w) as [es|] eqn:Hes.
  - exists es. split; [reflexivity|].
    destruct (in_list source [DANBOORU_PREFIX; E621_PREFIX]) eqn:Hs.
    + apply in_list_spec in Hs.
      destruct (in_list suffix [TAGS_SUFFIX; COOCCURRENCE_SUFFIX]) eqn:Hx.
      * apply in_list_spec in Hx. destruct Hx as [<-|[<-|[]]].
        -- rewrite (extra_endpoint_tags w es source index Hes Hs) in Hr.
           destruct (parse_int index) as [i|]; [|discriminate].
           destruct (_ || _); [discriminate|].
           destruct (nth_error _ (Z.to_nat i)) as [g|] eqn:Hnth; [|discriminate].
           destruct (data_exists w g) eqn:Hg; [|discriminate].
           injection Hr as <-. apply nth_error_In in Hnth.
           repeat split; try assumption.
           apply extra_files_are_candidates. left. exact Hnth.
        -- rewrite (extra_endpoint_cooccurrence w es source index Hes Hs) in Hr.
           destruct (parse_int index) as [i|]; [|discriminate].
           destruct (i <? 0); discriminate.
      * destruct (get_csv_file_status_returns w es Hes) as [data [Hdata _]].
        unfold get_extra_tags_file in Hr. rewrite Hdata in Hr. cbn [bind] in Hr.
        rewrite Hx, orb_true_r in Hr. discriminate.
    + destruct (get_csv_file_status_returns w es Hes) as [data [Hdata _]].
      unfold get_extra_tags_file in Hr. rewrite Hdata in Hr. cbn [bind] in Hr.
      rewrite Hs in Hr. discriminate.
  - unfold get_extra_tags_file in Hr. rewrite (get_csv_file_status_raises w Hes) in Hr.
    discriminate.
Qed.

End FileEndpoints.

Lemma get_extra_tags_file_negative_witness :
  get_extra_tags_file Sample.sample "e621" "tags_cooccurrence" " -1 "
  = Return (json_response (error_body "Invalid index") 404).
Proof.
  apply (get_extra_tags_file_negative Sample.sample Sample.data_files
           "e621" "tags_cooccurrence" " -1 " (-1)).
  - reflexivity.
  - right. left. reflexivity.
  - right. left. reflexivity.
  - reflexivity.
  - lia.
Defined.

Lemma missing_data_directory_witness :
  get_extra_tags_file Sample.no_data "lora" "tags" "x"
  = Raise (OSError "No such file or directory")
  /\ get_csv_list Sample.no_data = (Raise (OSError "No such file or directory"), Sample.no_data)
  /\ (get_base_tags_file Sample.no_data "lora" "tags"
      = json_response (error_body "Invalid tag source or suffix") 400
      \/ get_base_tags_file Sample.no_data "lora" "tags"
         = json_response (error_body "Base tags file not found") 404).
Proof.
  apply (missing_data_directory Sample.no_data "lora" "tags" "x"). reflexivity.
Defined.

Lemma get_base_tags_file_serves_witness :
  In "e621_tags_cooccurrence.csv"
    ["danbooru_tags.csv"; "danbooru_tags_cooccurrence.csv";
     "e621_tags.csv"; "e621_tags_cooccurrence.csv";
     "lora_tags.csv"; "lora_tags_cooccurrence.csv"]
  /\ "e621_tags_cooccurrence.csv" = base_file "e621" "tags_cooccurrence"
  /\ data_exists Sample.sample "e621_tags_cooccurrence.csv" = true.
Proof.
  apply (get_base_tags_file_serves Sample.sample "e621" "tags_cooccurrence"
           "e621_tags_cooccurrence.csv").
  reflexivity.
Defined.

Lemma get_extra_tags_file_serves_witness :
  exists es,
    data_dir Sample.sample = Some es
    /\ In "danbooru" [DANBOORU_PREFIX; E621_PREFIX]
    /\ "tags" = TAGS_SUFFIX
    /\ In "danbooru_tags_extra1.csv" (fst (extra_files "danbooru" (map fst es)))
    /\ In "danbooru_tags_extra1.csv" (extra_candidates "danbooru" (map fst es))
    /\ data_exists Sample.sample "danbooru_tags_extra1.csv" = true.
Proof.
  apply (get_extra_tags_file_serves Sample.sample "danbooru" "tags" "0"
           "danbooru_tags_extra1.csv").
  reflexivity.
Defined.

(** ** The synthesizer and the data directory *)

Lemma put_put (name : string) (n : node) (es : list (string * node)) :
  put name n (put name n es) = put name n es.
Proof.
  induction es as [|[m x] es IH]; cbn [put].
  - rewrite String.eqb_refl. reflexivity.
  - destruct (String.eqb name m) eqn:Hm; cbn [put]; rewrite Hm; [reflexivity|].
    rewrite IH. reflexivity.
Qed.

Lemma all_csv_files_put (prefix name : string) (n : node) (es : list (string * node)) :
  startswith name prefix = false ->
  all_csv_files prefix (map fst (put name n es)) = all_csv_files prefix (map fst es).
Proof.
  intros Hp. unfold all_csv_files.
  induction es as [|[m x] es IH]; cbn [put map fst List.filter].
  - rewrite Hp. reflexivity.
  - destruct (String.eqb name m); cbn [map fst List.filter]; [reflexivity|].
    rewrite IH. reflexivity.
Qed.

Section Regeneration.
Context `{PyRuntime}.

(** The ways a run of the synthesizer ends: without search path, with an
    exception before the target is opened, or with the target opened and
    written, to the end or up to a row that cannot be encoded. *)
Lemma generate_lora_csv_cases (w : world) (filename : string) :
  (lora_search_path w = [] /\ generate_lora_csv w filename = (Return false, w))
  \/ (exists e, generate_lora_csv w filename = (Raise e, w))
  \/ (exists rows es,
        lora_search_path w <> []
        /\ data_dir w = Some es
        /\ entry filename es <> Some Folder
        /\ for_each (lora_search_path w) (add_root w) [] = Return rows
        /\ generate_lora_csv w filename
           = (if all_encodable rows then Return true
              else Raise (UnicodeEncodeError "surrogates not allowed"),
              set_data_dir w (put filename (File (written_lines rows)) es))).
Proof.
  unfold generate_lora_csv.
  destruct (lora_search_path w) as [|p ps] eqn:Hp; [left; split; reflexivity|].
  right. cbn [length Nat.eqb].
  destruct (for_each (p :: ps) (add_root w) []) as [rows|e] eqn:Hrows;
    [|left; exists e; reflexivity].
  destruct (data_dir w) as [es|] eqn:Hes.
  - destruct (entry filename es) as [[b| |]|] eqn:Hf.
    2: { left. unfold write_csv, write_data_file. rewrite Hes, Hf.
         eexists. reflexivity. }
    all: right; exists rows, es;
      rewrite (write_csv_opens w es filename rows Hes) by congruence;
      repeat split; try congruence; destruct (all_encodable rows); reflexivity.
  - left. unfold write_csv, write_data_file. rewrite Hes. eexists. reflexivity.
Qed.

Lemma data_exists_put_other (w : world) (es : list (string * node))
    (name other : string) (n : node) :
  data_dir w = Some es ->
  other <> name ->
  data_exists (set_data_dir w (put name n es)) other = data_exists w other.
Proof.
  intros Hes Hne. unfold data_exists. rewrite Hes. cbn [set_data_dir data_dir].
  rewrite (entry_put_other name other n es Hne). reflexivity.
Qed.


Lemma source_status_after (w : world) (es : list (string * node)) (text prefix : string) :
  data_dir w = Some es ->
  In prefix [DANBOORU_PREFIX; E621_PREFIX] ->
  source_status (set_data_dir w (put (base_file LORA_PREFIX TAGS_SUFFIX) (File text) es))
    prefix (map fst (put (base_file LORA_PREFIX TAGS_SUFFIX) (File text) es))
  = source_status w prefix (map fst es).
Proof.
  intros Hes Hp. unfold source_status, extra_files.
  rewrite all_csv_files_put by (destruct Hp as [<-|[<-|[]]]; reflexivity).
  rewrite !(data_exists_put_other w es) by
    (try exact Hes; destruct Hp as [<-|[<-|[]]]; discriminate).
  reflexivity.
Qed.

(** Regenerating lora_tags.csv does not change what the scanner reports:
    the file is no "danbooru" or "e621" file, so a scan after the listing
    endpoint's call of the synthesizer gives what the scan before it gave. *)
Theorem scan_after_generation (w : world) :
  get_csv_file_status (snd (generate_lora_csv w (base_file LORA_PREFIX TAGS_SUFFIX)))
  = get_csv_file_status w.
Proof.
  destruct (generate_lora_csv_cases w (base_file LORA_PREFIX TAGS_SUFFIX))
    as [[_ Hg] | [[e Hg] | [rows [es [_ [Hes [_ [_ Hg]]]]]]]]; rewrite Hg; cbn [fst snd];
    try reflexivity.
  unfold get_csv_file_status, scan_source, listdir.
  rewrite Hes. cbn [set_data_dir data_dir fold_left bind].
  rewrite !(source_status_after w es) by (try exact Hes; cbn; tauto).
  reflexivity.
Qed.

Lemma generate_again (w : world) (es : list (string * node)) (rows : list row)
    (filename : string) :
  lora_search_path w <> [] ->
  for_each (lora_search_path w) (add_root w) [] = Return rows ->
  generate_lora_csv (set_data_dir w (put filename (File (written_lines rows)) es)) filename
  = (if all_encodable rows then Return true
     else Raise (UnicodeEncodeError "surrogates not allowed"),
     set_data_dir w (put filename (File (written_lines rows)) es)).
Proof.
  intros Hne Hrows. unfold generate_lora_csv.
  change (lora_search_path (set_data_dir w _)) with (lora_search_path w).
  rewrite (config_not_empty _ Hne).
  change (add_root (set_data_dir w (put filename (File (written_lines rows)) es)))
    with (add_root w).
  rewrite Hrows.
  rewrite (write_csv_opens
             (set_data_dir w (put filename (File (written_lines rows)) es))
             (put filename (File (written_lines rows)) es) filename rows eq_refl)
    by (rewrite entry_put; discriminate).
  rewrite put_put. destruct (all_encodable rows); reflexivity.
Qed.

(** A second run right after a run that returned true returns true again
    and changes nothing. *)
Theorem generate_lora_csv_idempotent (w w' : world) (filename : string) :
  generate_lora_csv w filename = (Return true, w') ->
  generate_lora_csv w' filename = (Return true, w').
Proof.
  intros Hrun.
  destruct (generate_lora_csv_cases w filename)
    as [[_ Hg] | [[e Hg] | [rows [es [Hne [Hes [Hnf [Hrows Hg]]]]]]]];
    rewrite Hg in Hrun; try discriminate.
  destruct (all_encodable rows) eqn:Hall; [|discriminate].
  injection Hrun as <-.
  rewrite (generate_again w es rows filename Hne Hrows), Hall. reflexivity.
Qed.

(** Polling the listing endpoint is repeatable: a second request right
    after a first one gets the same answer and leaves the same world. *)
Theorem get_csv_list_repeatable (w : world) :
  get_csv_list (snd (get_csv_list w)) = get_csv_list w.
Proof.
  destruct (data_dir w) as [es|] eqn:Hes.
  - rewrite (get_csv_list_unfold w es Hes).
    destruct (generate_lora_csv_cases w (base_file LORA_PREFIX TAGS_SUFFIX))
      as [[_ Hg] | [[e Hg] | [rows [es' [Hne [Hes' [Hnf [Hrows Hg]]]]]]]];
      rewrite Hg; cbn [snd].
    + rewrite (get_csv_list_unfold w es Hes), Hg. reflexivity.
    + rewrite (get_csv_list_unfold w es Hes), Hg. reflexivity.
    + assert (es' = es) as -> by congruence.
      destruct (all_encodable rows) eqn:Hall; cbn [snd];
        rewrite (get_csv_list_unfold
                   (set_data_dir w (put (base_file LORA_PREFIX TAGS_SUFFIX)
                                      (File (written_lines rows)) es))
                   (put (base_file LORA_PREFIX TAGS_SUFFIX) (File (written_lines rows)) es)
                   eq_refl);
        rewrite (generate_again w es rows _ Hne Hrows), Hall;
        rewrite ?(source_status_after w es) by (try exact Hes; cbn; tauto);
        reflexivity.
  - unfold get_csv_list at 2. rewrite (get_csv_file_status_raises w Hes).
    cbn [bind snd]. unfold get_csv_list. rewrite (get_csv_file_status_raises w Hes).
    reflexivity.
Qed.

(** After a run that returned true, the base-file endpoint serves the
    target for ("lora", "tags"): a 200 whose bytes are the lines of the rows
    just collected. *)
Theorem generated_file_is_served (w w' : world) :
  generate_lora_csv w (base_file LORA_PREFIX TAGS_SUFFIX) = (Return true, w') ->
  exists rows,
    for_each (lora_search_path w) (add_root w) [] = Return rows
    /\ get_base_tags_file w' LORA_PREFIX TAGS_SUFFIX
       = FileResponse (base_file LORA_PREFIX TAGS_SUFFIX)
    /\ sent_file w' (base_file LORA_PREFIX TAGS_SUFFIX) = Some (200, csv_text rows).
Proof.
  intros Hrun.
  destruct (generate_lora_csv_cases w (base_file LORA_PREFIX TAGS_SUFFIX))
    as [[_ Hg] | [[e Hg] | [rows [es [Hne [Hes [Hnf [Hrows Hg]]]]]]]];
    rewrite Hg in Hrun; try discriminate.
  destruct (all_encodable rows) eqn:Hall; [|discriminate].
  injection Hrun as <-. exists rows. split; [exact Hrows|].
  unfold get_base_tags_file, data_exists, sent_file. cbn [set_data_dir data_dir].
  rewrite entry_put, (written_lines_all rows Hall). split; reflexivity.
Qed.

End Regeneration.


Lemma generate_lora_csv_idempotent_witness :
  generate_lora_csv (snd (generate_lora_csv Sample.sample "lora_tags.csv")) "lora_tags.csv"
  = (Return true, snd (generate_lora_csv Sample.sample "lora_tags.csv")).
Proof.
  apply (generate_lora_csv_idempotent Sample.sample
           (snd (generate_lora_csv Sample.sample "lora_tags.csv")) "lora_tags.csv").
  reflexivity.
Defined.

Lemma generated_file_is_served_witness :
  exists rows,
    for_each (lora_search_path Sample.sample) (add_root Sample.sample) [] = Return rows
    /\ get_base_tags_file (snd (generate_lora_csv Sample.sample "lora_tags.csv")) "lora" "tags"
       = FileResponse "lora_tags.csv"
    /\ sent_file (snd (generate_lora_csv Sample.sample "lora_tags.csv")) "lora_tags.csv"
       = Some (200, csv_text rows).
Proof.
  apply (generated_file_is_served Sample.sample
           (snd (generate_lora_csv Sample.sample "lora_tags.csv"))).
  reflexivity.
Defined.

(** ** Sidecars at their edges *)

Lemma last_dot_app (a b : string) (i : nat) (found : option nat) :
  last_dot (a +:+ b) i found = last_dot b (i + String.length a) (last_dot a i found).
Proof.
  revert i found. induction a as [|c a IH]; intros i found.
  - change ("" +:+ b) with b. cbn [String.length last_dot].
    rewrite Nat.add_0_r. reflexivity.
  - rewrite app_cons. cbn [last_dot String.length]. rewrite IH.
    rewrite Nat.add_succ_r. reflexivity.
Qed.

Lemma substring_stem (stem rest : string) :
  String.substring 0 (String.length stem) (stem +:+ rest) = stem.
Proof.
  induction stem as [|c stem IH].
  - destruct rest; reflexivity.
  - rewrite app_cons. cbn [String.length String.substring]. rewrite IH. reflexivity.
Qed.

(** The name of a row is the file name without its ".json", except for a
    file whose name is dots followed by "json" (".json", "..json"), which
    keeps its whole name, as [os.path.splitext] treats a leading dot. *)
Theorem sidecar_basename (stem : string) :
  splitext_root (stem +:+ ".json")
  = (if all_dots stem then stem +:+ ".json" else stem).
Proof.
  unfold splitext_root. rewrite last_dot_app.
  change (last_dot ".json" (0 + String.length stem) (last_dot stem 0 None))
    with (Some (0 + String.length stem)%nat).
  cbn [Nat.add]. rewrite substring_stem. reflexivity.
Qed.

Section SidecarEdges.
Context `{PyRuntime}.


(** A configured path that does not exist adds nothing to the rows. *)
Lemma add_root_missing (w : world) (rows : list row) (lora_path : string) :
  entry lora_path (lora_roots w) = None ->
  add_root w rows lora_path = Return rows.
Proof. intros Hm. unfold add_root. rewrite Hm. reflexivity. Qed.

End SidecarEdges.


(** ** The metadata reader without datasets, and the forced check *)

Section ForcedCheck.
Context `{PyRuntime}.

(** A metadata object without "hf_datasets", or with an empty list, [null],
    an empty string or another false value under that key, gives [None]. *)
Theorem reader_without_datasets (w : world) (items : list (string * json)) :
  csv_meta w = Present (Parsed (JDict items)) ->
  entry "hf_datasets" items = None
  \/ (exists d, entry "hf_datasets" items = Some d /\ truthy d = false) ->
  get_last_check_time_from_metadata w = Return JNull.
Proof.
  intros Hm Hd.
  unfold get_last_check_time_from_metadata, meta_exists, load_metadata.
  rewrite Hm. cbn [negb bind py_get].
  destruct Hd as [-> | [d [-> Hd]]]; cbn [bind]; [reflexivity|].
  rewrite Hd. reflexivity.
Qed.

Variable run_check_and_download : world -> result unit * world.

(** The forced check never raises and writes nothing of its own: the world
    it leaves is the downloader's.  It answers 200 with the timestamp the
    metadata reader returns after the run, and 500 with the text of the
    exception exactly when the downloader or the reader raised. *)
Theorem force_check_csv_updates_answers (w : world) :
  snd (force_check_csv_updates run_check_and_download w) = snd (run_check_and_download w)
  /\ ((exists t,
         fst (run_check_and_download w) = Return tt
         /\ get_last_check_time_from_metadata (snd (run_check_and_download w)) = Return t
         /\ fst (force_check_csv_updates run_check_and_download w)
            = Return (json_response
                        (Obj [("success", JBool true);
                              ("message", JStr "Force check completed successfully");
                              ("last_check_time", t)]) 200))
      \/ (exists e,
            (fst (run_check_and_download w) = Raise e
             \/ (fst (run_check_and_download w) = Return tt
                 /\ get_last_check_time_from_metadata (snd (run_check_and_download w))
                    = Raise e))
            /\ fst (force_check_csv_updates run_check_and_download w)
               = Return (json_response
                           (Obj [("success", JBool false); ("error", JStr (exn_str e))])
                           500))).
Proof.
  unfold force_check_csv_updates.
  destruct (run_check_and_download w) as [[[]|e] w']; cbn [fst snd bind].
  - split; [reflexivity|].
    destruct (get_last_check_time_from_metadata w') as [t|e] eqn:Hr; cbn [bind try_except].
    + left. exists t. repeat split.
    + right. exists e. split; [right; split; reflexivity | reflexivity].
  - split; [reflexivity|]. right. exists e. split; [left; reflexivity | reflexivity].
Qed.

End ForcedCheck.

Lemma reader_without_datasets_witness :
  get_last_check_time_from_metadata
    (Sample.with_meta (Present (Parsed (JDict [("hf_datasets", JList [])]))))
  = Return JNull.
Proof.
  apply (reader_without_datasets
           (Sample.with_meta (Present (Parsed (JDict [("hf_datasets", JList [])]))))
           [("hf_datasets", JList [])]).
  - reflexivity.
  - right. exists (JList []). split; reflexivity.
Defined.

(** A download that succeeds but leaves a metadata file whose JSON is a
    list is reported as a failure; a download that fails is reported with
    its own message. *)
Example force_check_after_list :
  fst (force_check_csv_updates Sample.writes_list Sample.sample)
  = Return (json_response
              (Obj [("success", JBool false);
                    ("error", JStr "object has no attribute 'get'")]) 500).
Proof. reflexivity. Qed.

Example force_check_offline :
  force_check_csv_updates Sample.offline Sample.sample
  = (Return (json_response
               (Obj [("success", JBool false); ("error", JStr "Network is unreachable")])
               500),
     Sample.sample).
Proof. reflexivity. Qed.

(** ** Rows are collected root by root *)

Section Collection.
Context `{PyRuntime}.

Lemma for_each_appends {A : Type} (body : list row -> A -> result (list row))
    (l : list A) :
  appends body ->
  forall rows, for_each l body rows = do new <- for_each l body [] ; Return (rows ++ new).
Proof.
  intros Hb. induction l as [|a l IH]; intros rows.
  - rewrite !for_each_nil. cbn [bind]. rewrite app_nil_r. reflexivity.
  - rewrite !for_each_cons, (Hb rows a).
    destruct (body [] a) as [new|e]; cbn [bind]; [|reflexivity].
    rewrite (IH (rows ++ new)), (IH new).
    destruct (for_each l body []) as [more|e]; cbn [bind]; [|reflexivity].
    rewrite <- app_assoc. reflexivity.
Qed.

Lemma for_each_app {A : Type} (body : list row -> A -> result (list row))
    (l1 l2 : list A) :
  appends body ->
  for_each (l1 ++ l2) body []
  = do rows1 <- for_each l1 body [] ;
    do rows2 <- for_each l2 body [] ;
    Return (rows1 ++ rows2).
Proof.
  intros Hb. induction l1 as [|a l1 IH].
  - rewrite for_each_nil. cbn [app bind].
    destruct (for_each l2 body []); reflexivity.
  - cbn [app]. rewrite !for_each_cons.
    destruct (body [] a) as [new|e]; cbn [bind]; [|reflexivity].
    rewrite (for_each_appends body (l1 ++ l2) Hb new), (for_each_appends body l1 Hb new), IH.
    destruct (for_each l1 body []) as [r1|e]; cbn [bind]; [|reflexivity].
    destruct (for_each l2 body []) as [r2|e]; cbn [bind]; [|reflexivity].
    rewrite <- app_assoc. reflexivity.
Qed.

Lemma add_sidecar_appends (root : string) (entries : list (string * tree)) :
  appends (add_sidecar root entries).
Proof.
  intros rows file. unfold add_sidecar.
  destruct (load_json entries file) as [v|e]; cbn [bind]; [|reflexivity].
  destruct (py_in "activation text" v) as [[|]|e]; cbn [bind negb];
    [|rewrite app_nil_r; reflexivity | reflexivity].
  destruct (subscript v "activation text") as [text|e]; cbn [bind]; [|reflexivity].
  destruct (py_get v "preferred weight" (JInt 0)) as [weight|e]; cbn [bind]; [|reflexivity].
  destruct (py_float weight) as [f|e]; cbn [bind]; reflexivity.
Qed.

Lemma add_root_appends (w : world) : appends (add_root w).
Proof.
  intros rows lora_path. unfold add_root.
  destruct (entry lora_path (lora_roots w)) as [t|]; cbn [bind];
    [|rewrite app_nil_r; reflexivity].
  apply for_each_appends. intros rows1 d.
  apply for_each_appends. apply add_sidecar_appends.
Qed.

(** The rows collected over a search path are the rows of its first part
    followed by the rows of the rest, each part collected on its own; an
    exception in the first part is the one that ends the run. *)
Theorem collected_rows_concat (w : world) (paths1 paths2 : list string) :
  for_each (paths1 ++ paths2) (add_root w) []
  = do rows1 <- for_each paths1 (add_root w) [] ;
    do rows2 <- for_each paths2 (add_root w) [] ;
    Return (rows1 ++ rows2).
Proof. apply for_each_app. apply add_root_appends. Qed.

(** The flags of the scanner and the base-file endpoint agree: "base_tags"
    (or "base_cooccurrence") of a source is true exactly when the endpoint
    serves that base file instead of answering 404. *)
Theorem base_flags_match_endpoint (w : world) (es : list (string * node))
    (prefix : string) :
  data_dir w = Some es ->
  In prefix [DANBOORU_PREFIX; E621_PREFIX] ->
  exists data status tags cooccurrence,
    get_csv_file_status w = Return data
    /\ data !! prefix = Some status
    /\ status !! "base_tags" = Some (FBool tags)
    /\ status !! "base_cooccurrence" = Some (FBool cooccurrence)
    /\ (tags = true
        <-> get_base_tags_file w prefix TAGS_SUFFIX
            = FileResponse (base_file prefix TAGS_SUFFIX))
    /\ (cooccurrence = true
        <-> get_base_tags_file w prefix COOCCURRENCE_SUFFIX
            = FileResponse (base_file prefix COOCCURRENCE_SUFFIX)).
Proof.
  intros Hes Hp.
  destruct (scanned_source w es prefix Hes Hp) as [data [Hdata Hsrc]].
  exists data, (source_status w prefix (map fst es)),
    (data_exists w (base_file prefix TAGS_SUFFIX)),
    (data_exists w (base_file prefix COOCCURRENCE_SUFFIX)).
  split; [exact Hdata|]. split; [exact Hsrc|].
  split; [reflexivity|]. split; [reflexivity|].
  assert (Hs : in_list prefix [DANBOORU_PREFIX; E621_PREFIX; LORA_PREFIX] = true).
  { apply in_list_spec. destruct Hp as [<-|[<-|[]]]; cbn; tauto. }
  unfold get_base_tags_file. rewrite Hs.
  change (in_list TAGS_SUFFIX [TAGS_SUFFIX; COOCCURRENCE_SUFFIX]) with true.
  change (in_list COOCCURRENCE_SUFFIX [TAGS_SUFFIX; COOCCURRENCE_SUFFIX]) with true.
  cbn [negb orb].
  split.
  - destruct (data_exists w (base_file prefix TAGS_SUFFIX)); cbn [negb];
      split; congruence.
  - destruct (data_exists w (base_file prefix COOCCURRENCE_SUFFIX)); cbn [negb];
      split; congruence.
Qed.

End Collection.

Lemma base_flags_match_endpoint_witness :
  exists data status tags cooccurrence,
    get_csv_file_status Sample.sample = Return data
    /\ data !! "e621" = Some status
    /\ status !! "base_tags" = Some (FBool tags)
    /\ status !! "base_cooccurrence" = Some (FBool cooccurrence)
    /\ (tags = true
        <-> get_base_tags_file Sample.sample "e621" TAGS_SUFFIX
            = FileResponse (base_file "e621" TAGS_SUFFIX))
    /\ (cooccurrence = true
        <-> get_base_tags_file Sample.sample "e621" COOCCURRENCE_SUFFIX
            = FileResponse (base_file "e621" COOCCURRENCE_SUFFIX)).
Proof.
  apply (base_flags_match_endpoint Sample.sample Sample.data_files "e621").
  - reflexivity.
  - right. left. reflexivity.
Defined.

(** ** The index read by [int]

    White space and the digits of other scripts are read; the information
    separators, white space to [str.strip], are not. *)

Example int_reads_ascii :
  parse_int (H := Reference.runtime) (" +1_2" +:+ String "009" "") = Some 12.
Proof. reflexivity. Qed.

Example int_reads_other_scripts :
  parse_int (H := Reference.runtime) Sample.fullwidth_index = Some 0
  /\ get_extra_tags_file Sample.sample "danbooru" "tags" Sample.fullwidth_index
     = Return (FileResponse "danbooru_tags_extra1.csv").
Proof. split; reflexivity. Qed.

Example int_refuses_separators :
  parse_int (H := Reference.runtime) Sample.separator_index = None
  /\ get_extra_tags_file Sample.sample "danbooru" "tags" Sample.separator_index
     = Return (json_response (error_body "Invalid index format") 400).
Proof. split; reflexivity. Qed.
